(** * SiEPIC-Tools core: Net, Pin and Component

    A shallow embedding of the connectivity classes of
    [klayout_dot_config/python/SiEPIC/core.py] together with the
    properties its specification states about them.

    Python objects live in a store addressed by references, so that
    aliasing (a list shared between two components, a method returning
    [self]) is visible.  Exceptions are an explicit outcome.  The host
    geometry library [pya] and the helpers of [SiEPIC.utils] and
    [SiEPIC._globals] are interfaces whose operations are parameters. *)

From Stdlib Require Import ZArith QArith Qround Ascii String List Bool Lia.
From stdpp Require Import base option list gmap strings pretty.

Local Open Scope Z_scope.
Local Open Scope string_scope.

(** ** Python outcomes *)

Module Py.

(** The exceptions the modelled code can raise. *)
Inductive exn : Type :=
| ValueError
| IndexError
| AttributeError
| TypeError
| InvalidOperation.

(** The outcome of evaluating an expression: a value or a raised exception. *)
Inductive result (A : Type) : Type :=
| Ok (a : A)
| Raise (e : exn).
Arguments Ok {A} a.
Arguments Raise {A} e.

Definition bind {A B} (r : result A) (k : A → result B) : result B :=
  match r with
  | Ok a => k a
  | Raise e => Raise e
  end.

Definition is_ok {A} (r : result A) : bool :=
  match r with Ok _ => true | Raise _ => false end.

(** ** Strings *)

(** Truthiness of an optional string: [None] and [''] are falsy. *)
Definition truthy_str (s : option string) : bool :=
  match s with
  | None | Some EmptyString => false
  | Some _ => true
  end.

Definition lower_ascii (c : ascii) : ascii :=
  let n := nat_of_ascii c in
  if (65 <=? n)%nat && (n <=? 90)%nat then ascii_of_nat (n + 32) else c.

(** [s.lower()] on ASCII text. *)
Fixpoint lower (s : string) : string :=
  match s with
  | EmptyString => EmptyString
  | String c r => String (lower_ascii c) (lower r)
  end.

(** [s.replace(old, new)] where [old] is one character, as at every call
    site of the source. *)
Fixpoint replace (old : ascii) (new s : string) : string :=
  match s with
  | EmptyString => EmptyString
  | String c r =>
      if Ascii.eqb c old then new ++ replace old new r
      else String c (replace old new r)
  end.

(** [c in s] for a one-character string [c]. *)
Fixpoint contains (c : ascii) (s : string) : bool :=
  match s with
  | EmptyString => false
  | String d r => Ascii.eqb d c || contains c r
  end.

(** [s.split(sep)] with an explicit one-character separator: every
    occurrence splits, adjacent separators give empty fields, and the
    result is never empty. *)
Fixpoint split (sep : ascii) (s : string) : list string :=
  match s with
  | EmptyString => [EmptyString]
  | String c r =>
      if Ascii.eqb c sep then EmptyString :: split sep r
      else match split sep r with
           | f :: fs => String c f :: fs
           | [] => [String c EmptyString]
           end
  end.

(** [l[i]] for a non-negative literal index. *)
Definition index {A} (l : list A) (i : nat) : result A :=
  match l !! i with
  | Some a => Ok a
  | None => Raise IndexError
  end.

(** ** Numbers read from text *)

Definition is_space (c : ascii) : bool :=
  let n := nat_of_ascii c in
  ((9 <=? n)%nat && (n <=? 13)%nat) || (n =? 32)%nat.

Definition digit_of (c : ascii) : option Z :=
  let n := nat_of_ascii c in
  if (48 <=? n)%nat && (n <=? 57)%nat then Some (Z.of_nat (n - 48)) else None.

Fixpoint lstrip (s : string) : string :=
  match s with
  | String c r => if is_space c then lstrip r else s
  | EmptyString => EmptyString
  end.

Fixpoint rstrip (s : string) : string :=
  match s with
  | EmptyString => EmptyString
  | String c r =>
      match rstrip r with
      | EmptyString => if is_space c then EmptyString else String c EmptyString
      | r' => String c r'
      end
  end.

(** [s.strip()]. *)
Definition strip (s : string) : string := rstrip (lstrip s).

(** A run of decimal digits, most significant first, accumulated in
    [acc]; [None] when a character is not a digit. *)
Fixpoint digits_value (acc : Z) (s : string) : option Z :=
  match s with
  | EmptyString => Some acc
  | String c r =>
      match digit_of c with
      | Some d => digits_value (10 * acc + d) r
      | None => None
      end
  end.

(** An optional sign followed by the rest of the text. *)
Definition take_sign (s : string) : bool * string :=
  match s with
  | String "-" r => (true, r)
  | String "+" r => (false, r)
  | _ => (false, s)
  end.

(** [int(s)] in base ten on ASCII text: surrounding white space is
    dropped, then an optional sign and at least one digit.  Digit
    grouping with underscores is not modelled. *)
Definition int (s : string) : result Z :=
  let '(neg, body) := take_sign (strip s) in
  match body with
  | EmptyString => Raise ValueError
  | _ =>
      match digits_value 0 body with
      | Some n => Ok (if neg then - n else n)
      | None => Raise ValueError
      end
  end.

(** A finite [decimal.Decimal]: sign, coefficient and exponent. *)
Record Decimal : Type := mkDecimal {
  d_neg : bool;
  d_coeff : Z;
  d_exp : Z }.

(** The digits before an exponent marker, and what follows the marker. *)
Fixpoint split_exponent (s : string) : string * option string :=
  match s with
  | EmptyString => (EmptyString, None)
  | String c r =>
      if Ascii.eqb c "e" || Ascii.eqb c "E" then (EmptyString, Some r)
      else let '(m, e) := split_exponent r in (String c m, e)
  end.

(** The exponent part: an optional sign and at least one digit. *)
Definition exponent_value (s : string) : option Z :=
  let '(neg, body) := take_sign s in
  match body with
  | EmptyString => None
  | _ => (λ n, if neg then - n else n) <$> digits_value 0 body
  end.

(** [Decimal(s)] for the numeric syntax
    [sign? (digits ('.' digits?)? | '.' digits) ([eE] sign? digits)?]
    after stripping white space.  The special values (infinities, NaNs)
    have no ['.'] and no exponent marker, so they never reach the call
    in [params_dict]; underscores are not modelled. *)
Definition Decimal_of_string (s : string) : result Decimal :=
  let '(neg, body) := take_sign (strip s) in
  let '(mant, ex) := split_exponent body in
  let '(ip, fp) :=
    match split "." mant with
    | [i] => (i, EmptyString)
    | [i; f] => (i, f)
    | _ => (EmptyString, EmptyString)
    end in
  let dots := (List.length (split "." mant) - 1)%nat in
  if (1 <? dots)%nat then Raise InvalidOperation
  else if ((String.length ip + String.length fp)%nat =? 0)%nat
  then Raise InvalidOperation
  else
    match digits_value 0 (ip ++ fp), ex with
    | Some c, None => Ok (mkDecimal neg c (- Z.of_nat (String.length fp)))
    | Some c, Some e =>
        match exponent_value e with
        | Some x => Ok (mkDecimal neg c (x - Z.of_nat (String.length fp)))
        | None => Raise InvalidOperation
        end
    | None, _ => Raise InvalidOperation
    end.

(** [a * b] on decimals, exact: the coefficients multiply and the
    exponents add.  The context's rounding to 28 significant digits and
    its exponent limits are not modelled. *)
Definition Decimal_mul (a b : Decimal) : Decimal :=
  mkDecimal (xorb (d_neg a) (d_neg b)) (d_coeff a * d_coeff b) (d_exp a + d_exp b).

(** The values stored in the dictionary [params_dict] returns.  [VFloat d]
    is [float(d)], the double nearest to the decimal [d]. *)
Inductive value : Type :=
| VInt (n : Z)
| VFloat (d : Decimal)
| VStr (s : string).

End Py.

Import Py.

Declare Scope py_scope.
Delimit Scope py_scope with py.
Notation "'let?' x ':=' e 'in' k" := (Py.bind e (λ x, k))
  (at level 10, x name, e at level 100, k at level 200) : py_scope.
Local Open Scope py_scope.

(** ** The host geometry library *)

(** [pya] supplies points, vectors, paths, boxes, polygons and
    transformations; [SiEPIC.extend] adds [get_points] and [to_dtype] to
    them and [SiEPIC.utils] supplies [angle_vector].  None of them is
    part of [core.py]: their types and operations are the parameters of
    the embedding. *)
Class Host : Type := {
  Point : Type;
  DPoint : Type;
  Vector : Type;
  Path : Type;
  Box : Type;
  Polygon : Type;
  Trans : Type;
  Angle : Type;
  HostObj : Type;
  (** [p + q], [p - q] and [p * f] on points *)
  Point_add : Point → Point → Point;
  Point_sub : Point → Point → Vector;
  Point_mul : Point → Q → Point;
  Point_to_s : Point → string;
  Point_to_dtype : Point → Q → DPoint;
  (** [path.get_points()] and [path.transformed(t)] *)
  Path_get_points : Path → list Point;
  Path_transformed : Path → Trans → Path;
  (** [box.center()] *)
  Box_center : Box → Point;
  (** [polygon.bbox()] and [polygon.transformed(t)] *)
  Polygon_bbox : Polygon → Box;
  Polygon_transformed : Polygon → Trans → Polygon;
  (** [t2 * t1]: the transformation that applies [t1] first *)
  Trans_mul : Trans → Trans → Trans;
  (** [angle_vector(v)]: the direction of [v] in degrees *)
  angle_vector : Vector → Angle;
}.

(** The value of a pin's [rotation]: the integer literal [0] or what
    [angle_vector] returned. *)
Inductive Rotation `{Host} : Type :=
| RotInt (n : Z)
| RotAngle (a : Angle).
Arguments RotInt {_} n.
Arguments RotAngle {_} a.

(** ** Globals of the package *)

(** References to Python objects. *)
Definition loc : Type := positive.

(** [_globals.PIN_TYPES]: the enumeration of pin kinds. *)
Inductive PIN_TYPES : Type := OPTICALIO | OPTICAL | ELECTRICAL.

Definition PIN_TYPES_eqb (a b : PIN_TYPES) : bool :=
  match a, b with
  | OPTICALIO, OPTICALIO | OPTICAL, OPTICAL | ELECTRICAL, ELECTRICAL => true
  | _, _ => false
  end.

(** The entries of the [TECHNOLOGY] dictionary that [core.py] reads. *)
Record Technology : Type := {
  technology_name : string;
  dbu : Q }.

(** What [core.py] imports from [_globals] and [utils], and the objects
    Python creates when the [def] statements of the module run. *)
Class Globals : Type := {
  (** [_globals.NET_DISCONNECTED], the net of an unconnected pin *)
  NET_DISCONNECTED : loc;
  (** [_globals.INTC_ELEMENTS], the registry of compact models, used
      only through [in] *)
  INTC_ELEMENTS : gset string;
  (** [utils.get_technology()] *)
  get_technology : Technology;
  (** the first component of [utils.get_layout_variables()] *)
  get_layout_variables : Technology;
  (** the list objects built once for the defaults [pins=[]],
      [epins=[]] and [nets=[]] of [Component.__init__] *)
  default_pins : loc;
  default_epins : loc;
  default_nets : loc;
}.

(** ** Objects *)

Record NetAttrs : Type := mkNet {
  net_idx : option Z;
  net_type : option PIN_TYPES;
  net_pins : option loc }.

(** The attributes of a [Pin].  [center] and [box] are not assigned on
    every path through [__init__]: [None] at the outer level says that
    the attribute does not exist. *)
Record PinAttrs `{Host} : Type := mkPin {
  pin_type : option PIN_TYPES;
  pin_net : loc;
  pin_pin_name : option string;
  pin_component : option loc;
  pin_path : option Path;
  pin_polygon : option Polygon;
  pin_center : option Point;
  pin_rotation : Rotation;
  pin_box : option (option Box) }.
Arguments mkPin {_} _ _ _ _ _ _ _ _ _.

Record ComponentAttrs `{Host} : Type := mkComponent {
  comp_idx : option Z;
  comp_component : option string;
  comp_instance : option HostObj;
  comp_trans : option Trans;
  comp_library : option string;
  comp_pins : loc;
  comp_npins : Z;
  comp_params : option string;
  comp_polygon : option Polygon;
  comp_DevRec_polygon : option Polygon;
  comp_center : Point;
  comp_cell : option HostObj;
  comp_basic_name : option string;
  comp_cellName : option string;
  comp_Dcenter : DPoint }.
Arguments mkComponent {_} _ _ _ _ _ _ _ _ _ _ _ _ _ _ _.

Inductive obj `{Host} : Type :=
| ListObj (items : list loc)
| NetObj (n : NetAttrs)
| PinObj (p : PinAttrs)
| ComponentObj (c : ComponentAttrs).
Arguments ListObj {_} items.
Arguments NetObj {_} n.
Arguments PinObj {_} p.
Arguments ComponentObj {_} c.

(** One line of [pin_name, center.to_s(), net.idx]. *)
Definition pin_entry : Type := option string * string * option Z.

(** The text [Component.display] formats, kept as the tuple of values
    that fills the format string, in order. *)
Record Report `{Host} : Type := mkReport {
  r_basic_name : option string;
  r_component : option string;
  r_idx : option Z;
  r_instance : option HostObj;
  r_trans : option Trans;
  r_Dcenter : DPoint;
  r_npins : Z;
  r_optical : list pin_entry;
  r_electrical : list pin_entry;
  r_opticalio : list pin_entry;
  r_has_model : bool;
  r_params : option string }.
Arguments mkReport {_} _ _ _ _ _ _ _ _ _ _ _ _.

(** What [print] wrote. *)
Inductive line `{Host} : Type :=
| Message (s : string)
| ReportLine (r : Report).
Arguments Message {_} s.
Arguments ReportLine {_} r.

(** ** The store and the monad of statements *)

Record state `{Host} : Type := mkState {
  heap : gmap loc obj;
  stdout : list line }.
Arguments mkState {_} _ _.

(** A statement maps a state to an outcome and the state it leaves
    behind; what was assigned before an exception stays assigned. *)
Definition M `{Host} (A : Type) : Type := state → result A * state.

Section Monad.
Context `{Host}.

Definition ret {A} (a : A) : M A := λ σ, (Ok a, σ).

Definition raise {A} (e : exn) : M A := λ σ, (Raise e, σ).

Definition mbind {A B} (m : M A) (k : A → M B) : M B :=
  λ σ, match m σ with
       | (Ok a, σ') => k a σ'
       | (Raise e, σ') => (Raise e, σ')
       end.

Definition lift {A} (r : result A) : M A := λ σ, (r, σ).

Definition print (l : line) : M unit :=
  λ σ, (Ok tt, mkState (heap σ) (stdout σ ++ [l])).

(** Allocation of a new object. *)
Definition alloc (o : obj) : M loc :=
  λ σ, let l := fresh (dom (heap σ)) in
       (Ok l, mkState (<[l := o]> (heap σ)) (stdout σ)).

Definition store (l : loc) (o : obj) : M unit :=
  λ σ, (Ok tt, mkState (<[l := o]> (heap σ)) (stdout σ)).

Definition read_list (l : loc) : M (list loc) :=
  λ σ, match heap σ !! l with
       | Some (ListObj xs) => (Ok xs, σ)
       | _ => (Raise TypeError, σ)
       end.

Definition read_net (l : loc) : M NetAttrs :=
  λ σ, match heap σ !! l with
       | Some (NetObj n) => (Ok n, σ)
       | _ => (Raise AttributeError, σ)
       end.

Definition read_pin (l : loc) : M PinAttrs :=
  λ σ, match heap σ !! l with
       | Some (PinObj p) => (Ok p, σ)
       | _ => (Raise AttributeError, σ)
       end.

Definition read_component (l : loc) : M ComponentAttrs :=
  λ σ, match heap σ !! l with
       | Some (ComponentObj c) => (Ok c, σ)
       | _ => (Raise AttributeError, σ)
       end.

(** An attribute that may not exist. *)
Definition getattr {A} (a : option A) : M A :=
  match a with
  | Some v => ret v
  | None => raise AttributeError
  end.

(** [l.append(x)] *)
Definition list_append (l x : loc) : M unit :=
  mbind (read_list l) (λ xs, store l (ListObj (xs ++ [x]))).

(** [len(l)] *)
Definition len (l : loc) : M Z :=
  mbind (read_list l) (λ xs, ret (Z.of_nat (length xs))).
End Monad.

Notation "'let!' x ':=' e 'in' k" := (mbind e (λ x, k))
  (at level 10, x name, e at level 100, k at level 200) : py_scope.
Notation "e ';;' k" := (mbind e (λ _, k))
  (at level 100, k at level 200, right associativity) : py_scope.

(** ** Formatted text *)

(** The values that fill the format strings of the [display] methods. *)
#[warnings="-register-all"]
Inductive fmt_arg `{Host} : Type :=
| FStr (s : option string)
| FInt (n : option Z)
| FType (t : option PIN_TYPES)
| FRotation (r : Rotation)
| FPoint (p : Point)
| FPath (p : option Path)
| FHostObj (o : option HostObj)
| FList (l : list fmt_arg).
Arguments FStr {_} s.
Arguments FInt {_} n.
Arguments FType {_} t.
Arguments FRotation {_} r.
Arguments FPoint {_} p.
Arguments FPath {_} p.
Arguments FHostObj {_} o.
Arguments FList {_} l.

(** [fmt % args]: Python's formatting operator, which relies on the
    [str] and [repr] of the host's objects. *)
Class Format `{Host} : Type := {
  percent : string → list fmt_arg → string;
}.

(** ** class Net *)

Module Net.
Section WithHost.
Context `{Host} `{Globals}.

(** [Net.__init__(self, idx=None, _type=None, pins=None)] *)
Definition __init__ (idx : option Z) (_type : option PIN_TYPES)
    (pins : option loc) : NetAttrs :=
  mkNet idx _type pins.

(** [Net(idx, _type, pins)] *)
Definition new (idx : option Z) (_type : option PIN_TYPES)
    (pins : option loc) : M loc :=
  alloc (NetObj (__init__ idx _type pins)).
End WithHost.

Section Display.
Context `{Host} {Fmt : Format}.

(** [p.component.component] and [p.component.instance] of a pin. *)
Definition component_of (p : PinAttrs) : M ComponentAttrs :=
  let! c := getattr (pin_component p) in read_component c.

(** The iteration of [[p.pin_name, p.center.to_s(),
    p.component.component, p.component.instance] for p in self.pins] over
    the items [ps] of the list. *)
Fixpoint pin_rows (ps : list loc) : M (list fmt_arg) :=
  match ps with
  | [] => ret []
  | p :: rest =>
      let! pin := read_pin p in
      let! ctr := getattr (pin_center pin) in
      let! c := component_of pin in
      let! c' := component_of pin in
      let! rows := pin_rows rest in
      ret (FList [FStr (pin_pin_name pin); FStr (Some (Point_to_s ctr));
                  FStr (comp_component c); FHostObj (comp_instance c')]
           :: rows)
  end.

(** [Net.display(self)]; iterating over [None] is a [TypeError]. *)
Definition display (self : loc) : M unit :=
  let! n := read_net self in
  let! pins := match net_pins n with
               | Some l => read_list l
               | None => raise TypeError
               end in
  let! rows := pin_rows pins in
  print (Message (percent "- net: %s, pins: %s" [FInt (net_idx n); FList rows])).
End Display.
End Net.

(** ** class Pin *)

Module Pin.
Section WithHost.
Context `{Host} `{Globals}.

Definition set_path (v : option Path) (p : PinAttrs) : PinAttrs :=
  mkPin (pin_type p) (pin_net p) (pin_pin_name p) (pin_component p) v
    (pin_polygon p) (pin_center p) (pin_rotation p) (pin_box p).

Definition set_polygon (v : option Polygon) (p : PinAttrs) : PinAttrs :=
  mkPin (pin_type p) (pin_net p) (pin_pin_name p) (pin_component p)
    (pin_path p) v (pin_center p) (pin_rotation p) (pin_box p).

Definition set_center (v : Point) (p : PinAttrs) : PinAttrs :=
  mkPin (pin_type p) (pin_net p) (pin_pin_name p) (pin_component p)
    (pin_path p) (pin_polygon p) (Some v) (pin_rotation p) (pin_box p).

Definition set_rotation (v : Rotation) (p : PinAttrs) : PinAttrs :=
  mkPin (pin_type p) (pin_net p) (pin_pin_name p) (pin_component p)
    (pin_path p) (pin_polygon p) (pin_center p) v (pin_box p).

Definition set_box (v : option Box) (p : PinAttrs) : PinAttrs :=
  mkPin (pin_type p) (pin_net p) (pin_pin_name p) (pin_component p)
    (pin_path p) (pin_polygon p) (pin_center p) (pin_rotation p) (Some v).

(** [self.attr = v] on the pin at [self] *)
Definition update (self : loc) (f : PinAttrs → PinAttrs) : M unit :=
  let! p := read_pin self in store self (PinObj (f p)).

Definition invalid_pin_message : string :=
  "SiEPIC-Tools: class Pin():__init__: detected invalid Pin".

(** The part of [__init__] after the [if path:] statement: the box and
    polygon cases. *)
Definition init_box_polygon (box : option Box) (polygon : option Polygon)
    (p : PinAttrs) : PinAttrs :=
  let p := set_box box p in
  let p := match box with
           | Some b => set_center (Box_center b) p
           | None => p
           end in
  match polygon with
  | Some pg => set_center (Box_center (Polygon_bbox pg)) (set_rotation (RotInt 0) p)
  | None => p
  end.

(** [Pin.__init__(self, path=None, _type=None, box=None, polygon=None,
    component=None, net=None, pin_name=None)]: the attributes of the
    new pin and what was printed.  A host object or a [Net] is truthy
    whenever it is not [None]. *)
Definition __init__ (path : option Path) (_type : option PIN_TYPES)
    (box : option Box) (polygon : option Polygon) (component : option loc)
    (net : option loc) (pin_name : option string)
    : result (PinAttrs * list line) :=
  let self_net := match net with
                  | Some n => n
                  | None => NET_DISCONNECTED
                  end in
  (* center and box do not exist yet; rotation is assigned on every path *)
  let self := mkPin _type self_net pin_name component path polygon
                None (RotInt 0) None in
  match path with
  | Some pa =>
      let pts := Path_get_points pa in
      if (length pts =? 2)%nat then
        let? p0 := index pts 0 in
        let? p1 := index pts 1 in
        let self := set_center (Point_mul (Point_add p0 p1) (1 # 2)) self in
        let? q1 := index pts 1 in
        let? q0 := index pts 0 in
        let self := set_rotation (RotAngle (angle_vector (Point_sub q1 q0))) self in
        Ok (init_box_polygon box polygon self, [])
      else
        (* print, self.rotation = 0, return *)
        Ok (set_rotation (RotInt 0) self, [Message invalid_pin_message])
  | None =>
      Ok (init_box_polygon box polygon (set_rotation (RotInt 0) self), [])
  end.

Fixpoint print_all (ls : list line) : M unit :=
  match ls with
  | [] => ret tt
  | l :: r => print l ;; print_all r
  end.

(** [Pin(path, _type, box, polygon, component, net, pin_name)] *)
Definition new (path : option Path) (_type : option PIN_TYPES)
    (box : option Box) (polygon : option Polygon) (component : option loc)
    (net : option loc) (pin_name : option string) : M loc :=
  let! r := lift (__init__ path _type box polygon component net pin_name) in
  print_all (snd r) ;;
  alloc (PinObj (fst r)).

(** [Pin.transform(self, trans)] *)
Definition transform (self : loc) (trans : Trans) : M loc :=
  let! p := read_pin self in
  match pin_path p with
  | Some pa =>
      update self (set_path (Some (Path_transformed pa trans))) ;;
      let pts := Path_get_points (Path_transformed pa trans) in
      let! p0 := lift (index pts 0) in
      let! p1 := lift (index pts 1) in
      update self (set_center (Point_mul (Point_add p0 p1) (1 # 2))) ;;
      let! q1 := lift (index pts 1) in
      let! q0 := lift (index pts 0) in
      update self (set_rotation (RotAngle (angle_vector (Point_sub q1 q0))))
  | None => ret tt
  end ;;
  let! p := read_pin self in
  match pin_polygon p with
  | Some pg =>
      update self (set_polygon (Some (Polygon_transformed pg trans))) ;;
      update self (set_center (Box_center (Polygon_bbox (Polygon_transformed pg trans)))) ;;
      update self (set_rotation (RotInt 0))
  | None => ret tt
  end ;;
  ret self.
End WithHost.

Section Display.
Context `{Host} {Fmt : Format}.

Definition display_format : string :=
  "- pin_name %s: component_idx %s, pin_type %s, rotation: %s, net: %s, (%s), path: %s".

(** [Pin.display(self)] *)
Definition display (self : loc) : M unit :=
  let! p := read_pin self in
  let! c := getattr (pin_component p) in
  let! comp := read_component c in
  let! net := read_net (pin_net p) in
  let! ctr := getattr (pin_center p) in
  print (Message (percent display_format
           [FStr (pin_pin_name p); FInt (comp_idx comp); FType (pin_type p);
            FRotation (pin_rotation p); FInt (net_idx net); FPoint ctr;
            FPath (pin_path p)])).
End Display.
End Pin.

(** ** class Component *)

Module Component.

(** The keyword arguments of [Component.__init__].  For [pins], [epins]
    and [nets], [None] says that the argument was left out, so that the
    default object is used; for the others the default is [None]. *)
Record kwargs `{Host} : Type := mkKwargs {
  idx : option Z;
  component : option string;
  instance : option HostObj;
  trans : option Trans;
  library : option string;
  params : option string;
  pins : option loc;
  epins : option loc;
  nets : option loc;
  polygon : option Polygon;
  DevRec_polygon : option Polygon;
  cell : option HostObj;
  basic_name : option string;
  cellName : option string }.
Arguments mkKwargs {_} _ _ _ _ _ _ _ _ _ _ _ _ _ _.

Section WithHost.
Context `{Host} `{Globals}.

Definition set_npins (v : Z) (c : ComponentAttrs) : ComponentAttrs :=
  mkComponent (comp_idx c) (comp_component c) (comp_instance c)
    (comp_trans c) (comp_library c) (comp_pins c) v (comp_params c)
    (comp_polygon c) (comp_DevRec_polygon c) (comp_center c) (comp_cell c)
    (comp_basic_name c) (comp_cellName c) (comp_Dcenter c).

Definition set_polygon (v : option Polygon) (c : ComponentAttrs)
    : ComponentAttrs :=
  mkComponent (comp_idx c) (comp_component c) (comp_instance c)
    (comp_trans c) (comp_library c) (comp_pins c) (comp_npins c)
    (comp_params c) v (comp_DevRec_polygon c) (comp_center c) (comp_cell c)
    (comp_basic_name c) (comp_cellName c) (comp_Dcenter c).

(** [self.attr = v] on the component at [self] *)
Definition update (self : loc) (f : ComponentAttrs → ComponentAttrs)
    : M unit :=
  let! c := read_component self in store self (ComponentObj (f c)).

(** The assignment [c.polygon = v] made by a user of the class. *)
Definition assign_polygon (self : loc) (v : Polygon) : M unit :=
  update self (set_polygon (Some v)).

(** [polygon.bbox().center()]; [None] has no [bbox]. *)
Definition bbox_center (polygon : option Polygon) : result Point :=
  match polygon with
  | Some pg => Ok (Box_center (Polygon_bbox pg))
  | None => Raise AttributeError
  end.

(** [Component.__init__]: the attributes of the new component.  The
    arguments [epins] and [nets] are not stored. *)
Definition __init__ (a : kwargs) : M ComponentAttrs :=
  let pins := match pins a with
              | Some l => l
              | None => default_pins
              end in
  let! npins := len pins in
  let! center := lift (bbox_center (polygon a)) in
  let TECHNOLOGY := get_technology in
  ret (mkComponent (idx a) (component a) (instance a) (trans a)
         (library a) pins npins (params a) (polygon a) (DevRec_polygon a)
         center (cell a) (basic_name a) (cellName a)
         (Point_to_dtype center (dbu TECHNOLOGY))).

(** [Component(...)] *)
Definition new (a : kwargs) : M loc :=
  let! c := __init__ a in alloc (ComponentObj c).

(** [x.lower()] where [x] may be [None]. *)
Definition str_lower (x : option string) : result string :=
  match x with
  | Some s => Ok (lower s)
  | None => Raise AttributeError
  end.

(** The body of [has_model] on the attributes of [self]. *)
Definition has_model_attrs (self : ComponentAttrs) : result bool :=
  if truthy_str (comp_library self) && truthy_str (comp_component self) then
    let? l := str_lower (comp_library self) in
    let? c := str_lower (comp_component self) in
    Ok (bool_decide (replace "/" "::" l ++ "::" ++ c ∈ INTC_ELEMENTS))
  else
    let TECHNOLOGY := get_layout_variables in
    let? c := str_lower (comp_component self) in
    Ok (bool_decide ("design kits::" ++ lower (technology_name TECHNOLOGY)
                       ++ "::" ++ c ∈ INTC_ELEMENTS)).

(** [Component.has_model(self)] *)
Definition has_model (self : loc) : M bool :=
  let! c := read_component self in lift (has_model_attrs c).

(** The body of the loop of [params_dict] for the token [s]. *)
Definition params_dict_body (dictb : gmap string value) (s : string)
    : result (gmap string value) :=
  if String.eqb s "" then Ok dictb
  else
    let? v := index (split "=" s) 1 in
    let? is_int :=
      if negb (contains "." v) then
        let? w := index (split "=" s) 1 in
        Ok (negb (contains "e" (lower w)))
      else Ok false in
    if is_int : bool then
      let? w := index (split "=" s) 1 in
      let? n := int w in
      let? k := index (split "=" s) 0 in
      Ok (<[k := VInt n]> dictb)
    else
      let? string := index (split "=" s) 1 in
      let? q :=
        if contains "[" string then
          let? w := index (split "=" s) 1 in Ok (VStr w)
        else
          let string := replace "n" "e-9" (replace "u" "e-6" string) in
          let? d := Decimal_of_string string in
          let? m := Decimal_of_string "1e6" in
          Ok (VFloat (Decimal_mul d m)) in
      let? k := index (split "=" s) 0 in
      Ok (<[k := q]> dictb).

Fixpoint params_dict_loop (dicta : list string) (dictb : gmap string value)
    : result (gmap string value) :=
  match dicta with
  | [] => Ok dictb
  | s :: rest =>
      let? d := params_dict_body dictb s in params_dict_loop rest d
  end.

(** The body of [params_dict] on the attributes of [self]. *)
Definition params_dict_attrs (self : ComponentAttrs)
    : result (gmap string value) :=
  if negb (truthy_str (comp_params self)) then Ok ∅
  else
    match comp_params self with
    | Some p => params_dict_loop (split " " p) ∅
    | None => Ok ∅
    end.

(** [Component.params_dict(self)] *)
Definition params_dict (self : loc) : M (gmap string value) :=
  let! c := read_component self in lift (params_dict_attrs c).

Definition type_is (t : option PIN_TYPES) (k : PIN_TYPES) : bool :=
  match t with
  | Some t' => PIN_TYPES_eqb t' k
  | None => false
  end.

(** The iteration of [[p.pin_name, p.center.to_s(), p.net.idx] for p
    in c.pins if p.type == k] over the items [ps] of the list. *)
Fixpoint pin_entries (ps : list loc) (k : PIN_TYPES) : M (list pin_entry) :=
  match ps with
  | [] => ret []
  | p :: rest =>
      let! pin := read_pin p in
      if type_is (pin_type pin) k then
        let! ctr := getattr (pin_center pin) in
        let! net := read_net (pin_net pin) in
        let! es := pin_entries rest k in
        ret ((pin_pin_name pin, Point_to_s ctr, net_idx net) :: es)
      else pin_entries rest k
  end.

Definition pins_of_type (pins : loc) (k : PIN_TYPES) : M (list pin_entry) :=
  let! ps := read_list pins in pin_entries ps k.

(** [Component.display(self)].  [self] is not a list, so [cc] becomes
    [[self]] and the loop body runs once, with [c = self]. *)
Definition display (self : loc) : M Report :=
  let! c := read_component self in
  let! n := len (comp_pins c) in
  update self (set_npins n) ;;
  let! c := read_component self in
  let! optical := pins_of_type (comp_pins c) OPTICAL in
  let! electrical := pins_of_type (comp_pins c) ELECTRICAL in
  let! opticalio := pins_of_type (comp_pins c) OPTICALIO in
  let! model := has_model self in
  let text := mkReport (comp_basic_name c) (comp_component c) (comp_idx c)
                (comp_instance c) (comp_trans c) (comp_Dcenter c)
                (comp_npins c) optical electrical opticalio model
                (comp_params c) in
  print (ReportLine text) ;;
  ret text.
End WithHost.
End Component.

(** ** display_pins *)

Section DisplayPins.
Context `{Host} `{Globals} {Fmt : Format}.

(** [o.display()]: the method is that of the class of [o], so that a
    Component or a Net in the list is displayed by its own [display]; a
    list has no such method.  What a [display] returns is dropped. *)
Definition display_of (o : loc) : M unit :=
  λ σ, match heap σ !! o with
       | Some (PinObj _) => Pin.display o σ
       | Some (NetObj _) => Net.display o σ
       | Some (ComponentObj _) => (let! _ := Component.display o in ret tt) σ
       | Some (ListObj _) | None => (Raise AttributeError, σ)
       end.

(** The loop [for o in pins: o.display()]. *)
Fixpoint display_each (ps : list loc) : M unit :=
  match ps with
  | [] => ret tt
  | o :: rest => display_of o ;; display_each rest
  end.

(** [display_pins(pins)] *)
Definition display_pins (pins : loc) : M unit :=
  print (Message "Pins:") ;;
  let! ps := read_list pins in
  display_each ps.
End DisplayPins.

(** The store after the module was imported: the disconnected net and the
    three default lists exist, nothing was printed. *)
Definition import_state `{Host} `{Globals} : state :=
  mkState
    (<[default_nets := ListObj []]>
       (<[default_epins := ListObj []]>
          (<[default_pins := ListObj []]>
             (<[NET_DISCONNECTED := NetObj (Net.__init__ None None None)]> ∅))))
    [].

(** ** A host with integer coordinates

    An instance of the host interface on which the definitions can be
    run: points with integer coordinates in database units as in
    [pya.Point], and the orthogonal transformations of [pya.Trans]. *)

Module IntHost.

Definition IPoint : Type := Z * Z.

(** The four rotations by a multiple of 90 degrees. *)
Inductive Rot : Type := R0 | R90 | R180 | R270.

(** A rotation, after an optional mirroring at the x axis, followed by a
    displacement. *)
Record ITrans : Type := mkTrans {
  rot : Rot;
  mirror : bool;
  disp : IPoint }.

Definition rotate (r : Rot) (p : IPoint) : IPoint :=
  match r with
  | R0 => p
  | R90 => (- snd p, fst p)
  | R180 => (- fst p, - snd p)
  | R270 => (snd p, - fst p)
  end.

Definition rot_add (a b : Rot) : Rot :=
  match a, b with
  | R0, r | r, R0 => r
  | R90, R90 => R180
  | R90, R180 | R180, R90 => R270
  | R90, R270 | R270, R90 | R180, R180 => R0
  | R180, R270 | R270, R180 => R90
  | R270, R270 => R180
  end.

Definition rot_neg (a : Rot) : Rot :=
  match a with
  | R0 => R0
  | R90 => R270
  | R180 => R180
  | R270 => R90
  end.

Definition flip (m : bool) (p : IPoint) : IPoint :=
  if m then (fst p, - snd p) else p.

Definition add (p q : IPoint) : IPoint := (fst p + fst q, snd p + snd q).

Definition sub (p q : IPoint) : IPoint := (fst p - fst q, snd p - snd q).

(** The linear part of a transformation. *)
Definition linear (t : ITrans) (p : IPoint) : IPoint :=
  rotate (rot t) (flip (mirror t) p).

Definition apply (t : ITrans) (p : IPoint) : IPoint :=
  add (linear t p) (disp t).

(** [t2 * t1]: a mirroring in [t2] turns the rotation of [t1] around. *)
Definition mul (t2 t1 : ITrans) : ITrans :=
  mkTrans
    (rot_add (rot t2) (if mirror t2 then rot_neg (rot t1) else rot t1))
    (xorb (mirror t2) (mirror t1))
    (apply t2 (disp t1)).

(** Rounding of a scaled coordinate: half away from zero. *)
Definition round (q : Q) : Z :=
  if Qle_bool q 0 then Qceiling (q - (1 # 2)) else Qfloor (q + (1 # 2)).

Definition scale (p : IPoint) (f : Q) : IPoint :=
  (round (inject_Z (fst p) * f), round (inject_Z (snd p) * f)).

(** A box by its lower left and upper right corners. *)
Definition IBox : Type := IPoint * IPoint.

Definition center (b : IBox) : IPoint :=
  let '((x1, y1), (x2, y2)) := b in
  (x1 + (x2 - x1) / 2, y1 + (y2 - y1) / 2).

Definition bbox (pts : list IPoint) : IBox :=
  match pts with
  | [] => ((1, 1), (-1, -1))
  | p :: r =>
      fold_left (λ b q, ((Z.min (fst (fst b)) (fst q), Z.min (snd (fst b)) (snd q)),
                         (Z.max (fst (snd b)) (fst q), Z.max (snd (snd b)) (snd q))))
        r (p, p)
  end.

Definition to_s (p : IPoint) : string :=
  pretty (fst p) ++ "," ++ pretty (snd p).

#[export] Instance host : Host := {|
  Point := IPoint;
  DPoint := Q * Q;
  Vector := IPoint;
  Path := list IPoint;
  Box := IBox;
  Polygon := list IPoint;
  Trans := ITrans;
  (* the angle is kept as the vector whose direction it is *)
  Angle := IPoint;
  HostObj := string;
  Point_add := add;
  Point_sub := sub;
  Point_mul := scale;
  Point_to_s := to_s;
  Point_to_dtype := λ p f, (inject_Z (fst p) * f, inject_Z (snd p) * f)%Q;
  Path_get_points := λ pa, pa;
  Path_transformed := λ pa t, map (apply t) pa;
  Box_center := center;
  Polygon_bbox := bbox;
  Polygon_transformed := λ pg t, map (apply t) pg;
  Trans_mul := mul;
  angle_vector := λ v, v;
|}.

(** Globals with the registry [models] and the technology name [tech]. *)
Definition globals (models : gset string) (tech : string) : Globals := {|
  NET_DISCONNECTED := 1%positive;
  INTC_ELEMENTS := models;
  get_technology := {| technology_name := tech; dbu := 1 # 1000 |};
  get_layout_variables := {| technology_name := tech; dbu := 1 # 1000 |};
  default_pins := 2%positive;
  default_epins := 3%positive;
  default_nets := 4%positive;
|}.

End IntHost.

(** ** Statements about pins and components in the store *)

Section Statements.
Context `{Host}.

(** The pin a path-based pin becomes under [transform]: [pa] is the
    transformed path and [q0], [q1] its first two points. *)
Definition moved_path_pin (p : PinAttrs) (pa : Path) (q0 q1 : Point)
    : PinAttrs :=
  mkPin (pin_type p) (pin_net p) (pin_pin_name p) (pin_component p)
    (Some pa) (pin_polygon p)
    (Some (Point_mul (Point_add q0 q1) (1 # 2)))
    (RotAngle (angle_vector (Point_sub q1 q0))) (pin_box p).

(** A pin that [display] can list: it exists, has a center, and its
    net exists. *)
Definition pin_shown (σ : state) (l : loc) : Prop :=
  ∃ (p : PinAttrs) (ctr : Point) (n : NetAttrs),
    heap σ !! l = Some (PinObj p)
    ∧ pin_center p = Some ctr
    ∧ heap σ !! pin_net p = Some (NetObj n).
End Statements.

Section PinStatements.
Context `{Host}.

(** A path argument that [Pin.__init__] accepts: none, or a path of
    exactly two points. *)
Definition valid_path (path : option Path) : Prop :=
  match path with
  | Some pa => length (Path_get_points pa) = 2%nat
  | None => True
  end.

(** The midpoint of a two-point path. *)
Definition path_center (path : option Path) : option Point :=
  match path with
  | Some pa =>
      match Path_get_points pa with
      | [p0; p1] => Some (Point_mul (Point_add p0 p1) (1 # 2))
      | _ => None
      end
  | None => None
  end.

(** The direction of a two-point path, 0 without one. *)
Definition path_rotation (path : option Path) : Rotation :=
  match path with
  | Some pa =>
      match Path_get_points pa with
      | [p0; p1] => RotAngle (angle_vector (Point_sub p1 p0))
      | _ => RotInt 0
      end
  | None => RotInt 0
  end.

(** A pin that [Pin.display] and [Net.display] can print: it exists, has
    a center, belongs to a component that exists, and its net exists. *)
Definition pin_printable (σ : state) (l : loc) : Prop :=
  ∃ (p : PinAttrs) (ctr : Point) (cl : loc) (c : ComponentAttrs) (n : NetAttrs),
    heap σ !! l = Some (PinObj p)
    ∧ pin_center p = Some ctr
    ∧ pin_component p = Some cl
    ∧ heap σ !! cl = Some (ComponentObj c)
    ∧ heap σ !! pin_net p = Some (NetObj n).

(** Whether the object at [l] is a pin of type [k]. *)
Definition is_pin_of_type (σ : state) (k : PIN_TYPES) (l : loc) : bool :=
  match heap σ !! l with
  | Some (PinObj p) =>
      match pin_type p with
      | Some t => PIN_TYPES_eqb t k
      | None => false
      end
  | _ => false
  end.

(** Whether the object at [l] is a pin with a type. *)
Definition is_typed_pin (σ : state) (l : loc) : bool :=
  match heap σ !! l with
  | Some (PinObj p) => bool_decide (is_Some (pin_type p))
  | _ => false
  end.
End PinStatements.

(** ** Concrete layouts

    Inputs on the integer host at which the definitions are run. *)

Module Examples.
Import IntHost.

(** No compact model is registered; the technology is EBeam. *)
Definition g0 : Globals := globals ∅ "EBeam".

(** The registry holds the one key ["l::"]. *)
Definition g1 : Globals := globals {["l::"]} "EBeam".

(** The registry holds the key of the waveguide of the EBeam kit. *)
Definition g2 : Globals := globals {["design kits::ebeam::waveguide"]} "EBeam".

(** A move by 100 units along x. *)
Definition shift : ITrans := mkTrans R0 false (100, 0).

(** A quarter turn followed by a move. *)
Definition turn : ITrans := mkTrans R90 false (0, 20).

(** A mirroring at the x axis followed by a move. *)
Definition mirrored : ITrans := mkTrans R0 true (3, 4).

Definition square : list IPoint := [(0, 0); (10, 0); (10, 10); (0, 10)].

Definition far_square : list IPoint :=
  [(100, 100); (120, 100); (120, 120); (100, 120)].

(** [Component(component=name, library=lib, params=ps, pins=pins,
    polygon=pg)] *)
Definition kw (name lib ps : option string) (pins : option loc)
    (pg : option (list IPoint)) : Component.kwargs :=
  Component.mkKwargs None name None None lib ps pins None None pg None None
    None None.

(** An optical pin on the path from (0,0) to (10,0). *)
Definition optical_pin (g : Globals) : M loc :=
  @Pin.new host g (Some [(0, 0); (10, 0)]) (Some OPTICAL) None None None None
    (Some "opt1").

(** An electrical pin on the box from (0,0) to (10,10). *)
Definition electrical_pin (g : Globals) : M loc :=
  @Pin.new host g None (Some ELECTRICAL) (Some ((0, 0), (10, 10))) None None
    None (Some "elec1").

(** [p = Pin(box=...); p.transform(shift)]: the pin before and after. *)
Definition move_electrical_pin : M (loc * loc * PinAttrs * PinAttrs) :=
  let! p := electrical_pin g0 in
  let! before := read_pin p in
  let! r := Pin.transform p shift in
  let! after := read_pin p in
  ret (p, r, before, after).

(** [c1 = Component(polygon=...); c2 = Component(polygon=...);
    c1.pins.append(Pin(...))]: the new pin and the items of [c1.pins] and
    of [c2.pins]. *)
Definition append_to_first_of_two : M (loc * list loc * list loc) :=
  let! c1 := @Component.new host g0 (kw (Some "wg") None None None (Some square)) in
  let! c2 := @Component.new host g0 (kw (Some "wg") None None None (Some far_square)) in
  let! p := optical_pin g0 in
  let! a1 := read_component c1 in
  list_append (comp_pins a1) p ;;
  let! a1 := read_component c1 in
  let! l1 := read_list (comp_pins a1) in
  let! a2 := read_component c2 in
  let! l2 := read_list (comp_pins a2) in
  ret (p, l1, l2).

(** [c = Component(polygon=square); c.polygon = far_square]: the
    attributes of [c] afterwards. *)
Definition replace_polygon : M ComponentAttrs :=
  let! c := @Component.new host g0 (kw (Some "wg") None None None (Some square)) in
  Component.assign_polygon c far_square ;;
  read_component c.

(** [ps = []; c = Component(pins=ps, ...); ps.append(Pin(...));
    c.display()]: the attributes of [c] before and after [display], and
    what [display] returned. *)
Definition display_after_append
    : M (ComponentAttrs * Report * ComponentAttrs) :=
  let! ps := alloc (ListObj []) in
  let! c := @Component.new host g0 (kw (Some "wg") None None (Some ps) (Some square)) in
  let! p := optical_pin g0 in
  list_append ps p ;;
  let! before := read_component c in
  let! text := @Component.display host g0 c in
  let! after := read_component c in
  ret (before, text, after).

(** A store that holds one component built with the given arguments, and
    the reference to it. *)
Definition with_component (g : Globals) (a : Component.kwargs)
    : result loc * state :=
  @Component.new host g a (@import_state host g).

(** A store that holds the optical pin alone, at reference 5. *)
Definition pin5 : PinAttrs :=
  mkPin (Some OPTICAL) 1%positive (Some "opt1") None (Some [(0, 0); (10, 0)])
    None (Some (5, 0)) (RotAngle (10, 0)) (Some None).

Definition store5 : state :=
  mkState {[ 5%positive := PinObj pin5 ]} [].

(** The attributes of a component named [name] from library [lib] with
    parameters [ps], whose pins are the list at reference 6. *)
Definition component5 (name lib ps : option string) : ComponentAttrs :=
  mkComponent None name None None lib 6%positive 0 ps (Some square) None
    (5, 5) None None None ((5 # 1000), (5 # 1000))%Q.

(** A store that holds the component [c] at reference 5, its list of
    pins, with the optical pin as only item, at 6, the pin at 7 and the
    disconnected net at 1. *)
Definition store_with (c : ComponentAttrs) : state :=
  mkState
    (<[ 7%positive := PinObj pin5 ]>
       (<[ 6%positive := ListObj [7%positive] ]>
          (<[ 5%positive := ComponentObj c ]>
             {[ 1%positive := NetObj (Net.__init__ None None None) ]})))
    [].

End Examples.

(** ** A host with magnifications

    Points with integer coordinates as in [IntHost]; the transformations
    are the magnifications [pya.ICplxTrans(m)], the class of the [trans]
    of a Component.  A magnification multiplies each coordinate by [m]
    and rounds the result to the nearest database unit, at every
    [transformed]; the product of two magnifications is the
    magnification by the product. *)

Module MagHost.

Definition magnify (m : Q) (p : IntHost.IPoint) : IntHost.IPoint :=
  IntHost.scale p m.

Definition host : Host := {|
  Point := IntHost.IPoint;
  DPoint := Q * Q;
  Vector := IntHost.IPoint;
  Path := list IntHost.IPoint;
  Box := IntHost.IBox;
  Polygon := list IntHost.IPoint;
  Trans := Q;
  (* the angle is kept as the vector whose direction it is *)
  Angle := IntHost.IPoint;
  HostObj := string;
  Point_add := IntHost.add;
  Point_sub := IntHost.sub;
  Point_mul := IntHost.scale;
  Point_to_s := IntHost.to_s;
  Point_to_dtype := λ p f, (inject_Z (fst p) * f, inject_Z (snd p) * f)%Q;
  Path_get_points := λ pa, pa;
  Path_transformed := λ pa m, map (magnify m) pa;
  Box_center := IntHost.center;
  Polygon_bbox := IntHost.bbox;
  Polygon_transformed := λ pg m, map (magnify m) pg;
  Trans_mul := λ m2 m1, (m2 * m1)%Q;
  angle_vector := λ v, v;
|}.

#[local] Existing Instance host.

(** [p = Pin(path from (0,0) to (2,4)); p.transform(t1);
    p.transform(t2)]: the pin afterwards. *)
Definition in_steps (t1 t2 : Q) : M PinAttrs :=
  let! p := @Pin.new host Examples.g0 (Some [(0, 0); (2, 4)]) (Some OPTICAL)
              None None None None (Some "opt1") in
  let! _ := Pin.transform p t1 in
  let! _ := Pin.transform p t2 in
  read_pin p.

(** [p = Pin(path from (0,0) to (2,4)); p.transform(t2 * t1)]: the pin
    afterwards. *)
Definition at_once (t1 t2 : Q) : M PinAttrs :=
  let! p := @Pin.new host Examples.g0 (Some [(0, 0); (2, 4)]) (Some OPTICAL)
              None None None None (Some "opt1") in
  let! _ := Pin.transform p (Trans_mul t2 t1) in
  read_pin p.

End MagHost.

(** ** Text on the integer host *)

Module Printing.
Import IntHost.

Definition str_of_type (t : PIN_TYPES) : string :=
  match t with
  | OPTICALIO => "0"
  | OPTICAL => "1"
  | ELECTRICAL => "2"
  end.

Definition str_of_option {A} (f : A → string) (o : option A) : string :=
  match o with
  | Some a => f a
  | None => "None"
  end.

Definition str_of_points (pts : list IPoint) : string :=
  String.concat ";" (map to_s pts).

(** The text of one value. *)
Fixpoint render (a : @fmt_arg host) : string :=
  match a with
  | FStr s => str_of_option id s
  | FInt n => str_of_option pretty n
  | FType t => str_of_option str_of_type t
  | FRotation (RotInt n) => pretty n
  | FRotation (RotAngle v) => "angle(" ++ to_s v ++ ")"
  | FPoint p => to_s p
  | FPath pa => str_of_option str_of_points pa
  | FHostObj o => str_of_option id o
  | FList l =>
      "[" ++ (fix items (l : list (@fmt_arg host)) : string :=
                match l with
                | [] => ""
                | [x] => render x
                | x :: r => render x ++ ", " ++ items r
                end) l ++ "]"
  end.

(** Each [%s] of the format takes the next text. *)
Fixpoint fill (fmt : string) (texts : list string) : string :=
  match fmt with
  | String "%" (String "s" r) =>
      match texts with
      | t :: ts => t ++ fill r ts
      | [] => "%s" ++ fill r []
      end
  | String c r => String c (fill r texts)
  | EmptyString => EmptyString
  end.

#[export] Instance format : @Format host := {|
  percent := λ fmt args, fill fmt (map render args);
|}.

(** A component named [wg] with index 3 at reference 5, its list of pins
    at 6 holding the pin at 7, which belongs to the component, and the
    disconnected net at 1; the net at 8 lists the pins of the list at 6. *)
Definition owned_pin : PinAttrs :=
  mkPin (Some OPTICAL) 1%positive (Some "opt1") (Some 5%positive)
    (Some [(0, 0); (10, 0)]) None (Some (5, 0)) (RotAngle (10, 0)) (Some None).

Definition layout : state :=
  mkState
    (<[ 8%positive := NetObj (Net.__init__ (Some 0) (Some OPTICAL) (Some 6%positive)) ]>
       (<[ 7%positive := PinObj owned_pin ]>
          (<[ 6%positive := ListObj [7%positive] ]>
             (<[ 5%positive := ComponentObj
                   (mkComponent (Some 3) (Some "wg") None None None 6%positive 1
                      None (Some Examples.square) None (5, 5) None None None
                      ((5 # 1000), (5 # 1000))%Q) ]>
                {[ 1%positive := NetObj (Net.__init__ None None None) ]}))))
    [].

End Printing.

(** ** The rules of the specification

    The parsing rule of [params_dict] and the lookup key of [has_model]
    as the specification words them, to be compared with the code. *)

Module Spec.

(** The value of one token: an integer when it has no ['.'] and no
    ['e']/['E']; otherwise the literal text when it has a ['[']; otherwise
    the decimal read after the substitutions ['u'] to ['e-6'] and ['n'] to
    ['e-9'], times [1e6]. *)
Definition parse_value (v : string) : result value :=
  if negb (contains "." v) && negb (contains "e" v || contains "E" v) then
    let? n := int v in Ok (VInt n)
  else if contains "[" v then Ok (VStr v)
  else
    let? d := Decimal_of_string (replace "n" "e-9" (replace "u" "e-6" v)) in
    Ok (VFloat (Decimal_mul d (mkDecimal false 1 6))).

(** One [key=value] token: the key is the text before the first ['='],
    the value the text between the first and the second. *)
Definition parse_token (d : gmap string value) (s : string)
    : result (gmap string value) :=
  let? v := index (split "=" s) 1 in
  let? q := parse_value v in
  let? k := index (split "=" s) 0 in
  Ok (<[k := q]> d).

Fixpoint parse_tokens (ts : list string) (d : gmap string value)
    : result (gmap string value) :=
  match ts with
  | [] => Ok d
  | s :: r => let? d' := parse_token d s in parse_tokens r d'
  end.

Definition nonempty (s : string) : bool := negb (String.eqb s "").

(** The mapping of a [params] string: the tokens between spaces, empty
    tokens skipped, read from left to right. *)
Definition params_dict (params : option string) : result (gmap string value) :=
  match params with
  | None => Ok ∅
  | Some p => parse_tokens (filter (λ s, nonempty s = true) (split " " p)) ∅
  end.

(** The lookup key of a component named [name]: from the library when
    both the library and the name are set and not empty, from the active
    technology otherwise. *)
Definition lookup_key (library : option string) (tech name : string) : string :=
  match library with
  | Some l =>
      if nonempty l && nonempty name
      then replace "/" "::" (lower l) ++ "::" ++ lower name
      else "design kits::" ++ lower tech ++ "::" ++ lower name
  | None => "design kits::" ++ lower tech ++ "::" ++ lower name
  end.

(** The key as the specification first states it: from the library
    whenever the library is set. *)
Definition stated_key (library : option string) (tech name : string) : string :=
  match library with
  | Some l => replace "/" "::" (lower l) ++ "::" ++ lower name
  | None => "design kits::" ++ lower tech ++ "::" ++ lower name
  end.

End Spec.

(** * Properties *)

(** ** Strings and the monad *)

Lemma lower_ascii_is_e (c : ascii) :
  Ascii.eqb (lower_ascii c) "e" = Ascii.eqb c "e" || Ascii.eqb c "E".
Proof.
  destruct c as [[] [] [] [] [] [] [] []]; reflexivity.
Qed.

Lemma contains_e_lower (v : string) :
  contains "e" (lower v) = contains "e" v || contains "E" v.
Proof.
  induction v as [|c v IH]; simpl; [reflexivity|].
  rewrite IH, lower_ascii_is_e.
  destruct (Ascii.eqb c "e"), (Ascii.eqb c "E"),
    (contains "e" v), (contains "E" v); reflexivity.
Qed.

Lemma truthy_str_spec (s : option string) :
  truthy_str s = match s with Some t => Spec.nonempty t | None => false end.
Proof. destruct s as [[|]|]; reflexivity. Qed.

Section MonadFacts.
Context `{Host}.

Lemma read_component_at (l : loc) (c : ComponentAttrs) (σ : state) :
  heap σ !! l = Some (ComponentObj c) → read_component l σ = (Ok c, σ).
Proof. intros E. unfold read_component. rewrite E. reflexivity. Qed.

Lemma read_pin_at (l : loc) (p : PinAttrs) (σ : state) :
  heap σ !! l = Some (PinObj p) → read_pin l σ = (Ok p, σ).
Proof. intros E. unfold read_pin. rewrite E. reflexivity. Qed.

Lemma read_list_at (l : loc) (xs : list loc) (σ : state) :
  heap σ !! l = Some (ListObj xs) → read_list l σ = (Ok xs, σ).
Proof. intros E. unfold read_list. rewrite E. reflexivity. Qed.

Lemma read_net_at (l : loc) (n : NetAttrs) (σ : state) :
  heap σ !! l = Some (NetObj n) → read_net l σ = (Ok n, σ).
Proof. intros E. unfold read_net. rewrite E. reflexivity. Qed.

End MonadFacts.

(** Runs the statements of a goal as far as the reads of the store are
    known, from the hypotheses or because the location was just written. *)
Ltac run_store :=
  unfold list_append, len, getattr;
  unfold mbind, store, lift, ret, raise, print,
    read_pin, read_component, read_list, read_net;
  cbn;
  repeat (first
    [ rewrite lookup_insert_eq
    | match goal with
      | E : heap ?s !! ?l = Some _ |- context [heap ?s !! ?l] => rewrite E
      end ];
    cbn).

(** ** Pin *)

Section PinFacts.
Context `{Host} `{Globals}.

(** C1. A Pin built from a path of exactly two points [p0], [p1] and
    from no box and no polygon (OPTICAL pins, and any other type tag)
    has [center = (p0 + p1) * 0.5], the midpoint of the two points, and
    [rotation = angle_vector(p1 - p0)], the angle of the vector from
    point 0 to point 1; the constructor prints nothing. *)
Theorem Pin_init_two_point_path
    (pa : Path) (p0 p1 : Point) (_type : option PIN_TYPES)
    (component net : option loc) (pin_name : option string) :
  Path_get_points pa = [p0; p1] →
  ∃ pin,
    Pin.__init__ (Some pa) _type None None component net pin_name
      = Ok (pin, [])
    ∧ pin_center pin = Some (Point_mul (Point_add p0 p1) (1 # 2))
    ∧ pin_rotation pin = RotAngle (angle_vector (Point_sub p1 p0))
    ∧ pin_path pin = Some pa
    ∧ pin_type pin = _type.
Proof.
  intros Hpts. unfold Pin.__init__. rewrite Hpts. simpl.
  eexists. split; [reflexivity|]. simpl. auto.
Qed.

(** C5, as the code has it.  A Pin built from a path whose number of
    points is not two raises nothing: the constructor prints its
    "detected invalid Pin" message and returns at once, leaving a Pin
    with rotation 0 and neither a center nor a box attribute, whatever
    box and polygon were passed. *)
Theorem Pin_init_invalid_path
    (pa : Path) (_type : option PIN_TYPES) (box : option Box)
    (polygon : option Polygon) (component net : option loc)
    (pin_name : option string) :
  length (Path_get_points pa) ≠ 2%nat →
  Pin.__init__ (Some pa) _type box polygon component net pin_name
    = Ok (mkPin _type (default NET_DISCONNECTED net) pin_name component
            (Some pa) polygon None (RotInt 0) None,
          [Message Pin.invalid_pin_message]).
Proof.
  intros Hlen. unfold Pin.__init__.
  destruct (Nat.eqb_spec (length (Path_get_points pa)) 2) as [E|_];
    [contradiction|].
  destruct net; reflexivity.
Qed.

(** [transform] on a pin that has neither a path nor a polygon does
    nothing at all. *)
Lemma transform_no_path_no_polygon
    (self : loc) (p : PinAttrs) (t : Trans) (σ : state) :
  heap σ !! self = Some (PinObj p) →
  pin_path p = None → pin_polygon p = None →
  Pin.transform self t σ = (Ok self, σ).
Proof.
  intros Hself Hpath Hpoly. unfold Pin.transform. run_store.
  rewrite Hpath. run_store. rewrite Hpoly. reflexivity.
Qed.

(** [transform] on a path-based pin: the path is replaced by the
    transformed path, center and rotation are recomputed from its first
    two points, and the reference passed in is returned. *)
Lemma transform_path_pin
    (self : loc) (p : PinAttrs) (pa : Path) (t : Trans) (σ : state)
    (q0 q1 : Point) (qs : list Point) :
  heap σ !! self = Some (PinObj p) →
  pin_path p = Some pa → pin_polygon p = None →
  Path_get_points (Path_transformed pa t) = q0 :: q1 :: qs →
  Pin.transform self t σ
    = (Ok self,
       mkState (<[self := PinObj (moved_path_pin p (Path_transformed pa t) q0 q1)]> (heap σ))
         (stdout σ)).
Proof.
  intros Hself Hpath Hpoly Hpts.
  unfold Pin.transform, Pin.update. run_store.
  rewrite Hpath, Hpts. run_store. rewrite Hpoly. run_store.
  rewrite !insert_insert_eq.
  unfold moved_path_pin, Pin.set_rotation, Pin.set_center, Pin.set_path.
  cbn. rewrite ?Hpoly. reflexivity.
Qed.

(** [transform] on a polygon-based pin: the polygon is replaced by the
    transformed polygon, center becomes the centre of its bounding box,
    rotation becomes 0, and the reference passed in is returned. *)
Lemma transform_polygon_pin
    (self : loc) (p : PinAttrs) (pg : Polygon) (t : Trans) (σ : state) :
  heap σ !! self = Some (PinObj p) →
  pin_path p = None → pin_polygon p = Some pg →
  Pin.transform self t σ
    = (Ok self,
       mkState
         (<[self := PinObj
              (mkPin (pin_type p) (pin_net p) (pin_pin_name p)
                 (pin_component p) None (Some (Polygon_transformed pg t))
                 (Some (Box_center (Polygon_bbox (Polygon_transformed pg t))))
                 (RotInt 0) (pin_box p))]> (heap σ))
         (stdout σ)).
Proof.
  intros Hself Hpath Hpoly.
  unfold Pin.transform, Pin.update. run_store.
  rewrite Hpath. run_store. rewrite Hpoly. run_store.
  rewrite !insert_insert_eq.
  unfold Pin.set_rotation, Pin.set_center, Pin.set_polygon.
  cbn. rewrite ?Hpath. reflexivity.
Qed.
End PinFacts.

Section TransformComposition.
Context `{Host} `{Globals}.

Lemma two_points (l : list Point) :
  (2 ≤ length l)%nat → ∃ a b r, l = a :: b :: r.
Proof.
  destruct l as [|a [|b r]]; simpl; intros Hl; try lia. eauto.
Qed.

(** The two steps one after the other: the pin ends on the path
    transformed twice, with center and rotation from its first two
    points. *)
Lemma transform_twice
    (self : loc) (p : PinAttrs) (pa : Path) (t1 t2 : Trans) (σ : state)
    (m0 m1 a0 a1 : Point) (ml al : list Point) :
  heap σ !! self = Some (PinObj p) →
  pin_path p = Some pa → pin_polygon p = None →
  Path_get_points (Path_transformed pa t1) = m0 :: m1 :: ml →
  Path_get_points (Path_transformed (Path_transformed pa t1) t2)
    = a0 :: a1 :: al →
  (let! _ := Pin.transform self t1 in Pin.transform self t2) σ
    = (Ok self,
       mkState
         (<[self := PinObj (moved_path_pin p
                      (Path_transformed (Path_transformed pa t1) t2) a0 a1)]>
            (heap σ))
         (stdout σ)).
Proof.
  intros Hself Hpath Hpoly E1 E2.
  pose proof (transform_path_pin self p pa t1 σ m0 m1 ml Hself Hpath Hpoly E1)
    as Step1.
  set (p1 := moved_path_pin p (Path_transformed pa t1) m0 m1) in *.
  set (σ1 := mkState (<[self := PinObj p1]> (heap σ)) (stdout σ)) in *.
  assert (Step2 : Pin.transform self t2 σ1
            = (Ok self,
               mkState (<[self := PinObj (moved_path_pin p1
                            (Path_transformed (Path_transformed pa t1) t2)
                            a0 a1)]> (heap σ1))
                 (stdout σ1))).
  { apply transform_path_pin with (qs := al).
    - apply lookup_insert_eq.
    - reflexivity.
    - exact Hpoly.
    - exact E2. }
  unfold mbind at 1. rewrite Step1, Step2. subst σ1 p1. cbn.
  rewrite insert_insert_eq. reflexivity.
Qed.

(** C7, as the code has it.  A path-based Pin transformed by [t1] and
    then by [t2] ends on [path.transformed(t1).transformed(t2)], the Pin
    transformed once by [t2 * t1] on [path.transformed(t2 * t1)]; in
    both cases the Pin is returned and its center and rotation are the
    midpoint and the direction of the first two points of that path.
    The two ways so give the same center, the same rotation and the
    same store whenever the two paths are equal; nothing in [transform]
    makes them equal when the host rounds at every [transformed]. *)
Theorem transform_composition
    (self : loc) (p : PinAttrs) (pa : Path) (t1 t2 : Trans) (σ : state)
    (m0 m1 a0 a1 b0 b1 : Point) (ml al bl : list Point) :
  heap σ !! self = Some (PinObj p) →
  pin_path p = Some pa → pin_polygon p = None →
  Path_get_points (Path_transformed pa t1) = m0 :: m1 :: ml →
  Path_get_points (Path_transformed (Path_transformed pa t1) t2)
    = a0 :: a1 :: al →
  Path_get_points (Path_transformed pa (Trans_mul t2 t1)) = b0 :: b1 :: bl →
  ∃ (σ12 σ21 : state) (q12 q21 : PinAttrs),
    (let! _ := Pin.transform self t1 in Pin.transform self t2) σ
      = (Ok self, σ12)
    ∧ Pin.transform self (Trans_mul t2 t1) σ = (Ok self, σ21)
    ∧ heap σ12 !! self = Some (PinObj q12)
    ∧ heap σ21 !! self = Some (PinObj q21)
    ∧ pin_path q12 = Some (Path_transformed (Path_transformed pa t1) t2)
    ∧ pin_path q21 = Some (Path_transformed pa (Trans_mul t2 t1))
    ∧ pin_center q12 = Some (Point_mul (Point_add a0 a1) (1 # 2))
    ∧ pin_rotation q12 = RotAngle (angle_vector (Point_sub a1 a0))
    ∧ pin_center q21 = Some (Point_mul (Point_add b0 b1) (1 # 2))
    ∧ pin_rotation q21 = RotAngle (angle_vector (Point_sub b1 b0))
    ∧ (Path_transformed (Path_transformed pa t1) t2
         = Path_transformed pa (Trans_mul t2 t1) →
       pin_center q12 = pin_center q21
       ∧ pin_rotation q12 = pin_rotation q21
       ∧ σ12 = σ21).
Proof.
  intros Hself Hpath Hpoly E1 E2 E3.
  pose proof (transform_twice self p pa t1 t2 σ m0 m1 a0 a1 ml al
                Hself Hpath Hpoly E1 E2) as Two.
  pose proof (transform_path_pin self p pa (Trans_mul t2 t1) σ b0 b1 bl
                Hself Hpath Hpoly E3) as Once.
  eexists _, _, _, _.
  split; [exact Two|]. split; [exact Once|].
  cbn. rewrite !lookup_insert_eq.
  repeat (split; [reflexivity|]).
  intros Heq. rewrite Heq, E3 in E2. injection E2 as <- <- _.
  rewrite Heq. repeat split; reflexivity.
Qed.
End TransformComposition.

(** ** Component: params_dict *)

Section ParamsDictFacts.
Context `{Host} `{Globals}.

Lemma Decimal_1e6 : Decimal_of_string "1e6" = Ok (mkDecimal false 1 6).
Proof. reflexivity. Qed.

(** The loop body agrees with the rule of the specification on every
    token, and skips the empty token. *)
Lemma params_dict_body_rule (d : gmap string value) (s : string) :
  Component.params_dict_body d s
    = if Spec.nonempty s then Spec.parse_token d s else Ok d.
Proof.
  unfold Component.params_dict_body, Spec.parse_token, Spec.parse_value,
    Spec.nonempty.
  destruct (String.eqb s ""); [reflexivity|]. cbn [negb].
  destruct (index (split "=" s) 1) as [v|e]; [|reflexivity]. cbn [Py.bind].
  rewrite contains_e_lower, Decimal_1e6.
  destruct (contains "." v); cbn [negb andb Py.bind].
  - destruct (contains "[" v); cbn [Py.bind]; [reflexivity|].
    destruct (Decimal_of_string _); reflexivity.
  - destruct (contains "e" v || contains "E" v); cbn [negb Py.bind].
    + destruct (contains "[" v); cbn [Py.bind]; [reflexivity|].
      destruct (Decimal_of_string _); reflexivity.
    + destruct (int v); reflexivity.
Qed.

Lemma params_dict_loop_rule (ts : list string) (d : gmap string value) :
  Component.params_dict_loop ts d
    = Spec.parse_tokens (filter (λ s, Spec.nonempty s = true) ts) d.
Proof.
  revert d. induction ts as [|s ts IH]; intros d; [reflexivity|].
  cbn [Component.params_dict_loop]. rewrite params_dict_body_rule.
  rewrite filter_cons. destruct (Spec.nonempty s) eqn:E.
  - destruct (decide (true = true)) as [_|N]; [|contradiction].
    cbn [Spec.parse_tokens]. destruct (Spec.parse_token d s); cbn [Py.bind];
      [apply IH|reflexivity].
  - destruct (decide (false = true)) as [N|_]; [discriminate|].
    cbn [Py.bind]. apply IH.
Qed.

Lemma params_dict_attrs_rule (c : ComponentAttrs) :
  Component.params_dict_attrs c = Spec.params_dict (comp_params c).
Proof.
  unfold Component.params_dict_attrs, Spec.params_dict.
  destruct (comp_params c) as [[|a p]|]; try reflexivity.
  cbn [truthy_str negb]. apply params_dict_loop_rule.
Qed.

Lemma params_dict_run (self : loc) (c : ComponentAttrs) (σ : state) :
  heap σ !! self = Some (ComponentObj c) →
  Component.params_dict self σ = (Component.params_dict_attrs c, σ).
Proof. intros E. unfold Component.params_dict. run_store. reflexivity. Qed.

(** C2, as the code has it.  [params_dict] reads the tokens between
    spaces from left to right, skipping empty ones, and stores under the
    text before the first ['='] the value of the text after it: an
    integer when that text has no ['.'] and no ['e']/['E'], otherwise the
    text itself when it has a ['['], otherwise the decimal read after
    the substitutions ['u'] to ['e-6'] and ['n'] to ['e-9'], times 1e6.
    It leaves the store as it was.  A bracketed value is kept as text
    only when it has a ['.'] or an ['e']: for
    ["a=5 b=1.5u c=[1.5,2,3]"] the result maps [a] to the integer 5, [b]
    to the float 1.5 and [c] to the text ["[1.5,2,3]"]. *)
Theorem params_dict_rule (self : loc) (c : ComponentAttrs) (σ : state) :
  heap σ !! self = Some (ComponentObj c) →
  Component.params_dict self σ = (Spec.params_dict (comp_params c), σ)
  ∧ (comp_params c = Some "a=5 b=1.5u c=[1.5,2,3]" →
     Component.params_dict self σ
       = (Ok (<["a" := VInt 5]>
               (<["b" := VFloat (mkDecimal false 15 (-1))]>
                 (<["c" := VStr "[1.5,2,3]"]> ∅))), σ)).
Proof.
  intros E. rewrite (params_dict_run _ _ _ E), params_dict_attrs_rule.
  split; [reflexivity|]. intros ->. vm_compute. reflexivity.
Qed.

(** C8. [params_dict] is a function of the [params] text alone and
    leaves the store as it was, so that asking again gives the same
    mapping; when [params] is unset or empty it returns the empty
    mapping and raises nothing. *)
Theorem params_dict_deterministic_empty
    (self : loc) (c : ComponentAttrs) (σ : state) :
  heap σ !! self = Some (ComponentObj c) →
  snd (Component.params_dict self σ) = σ
  ∧ (∀ (self' : loc) (c' : ComponentAttrs) (σ' : state),
       heap σ' !! self' = Some (ComponentObj c') →
       comp_params c' = comp_params c →
       fst (Component.params_dict self' σ')
         = fst (Component.params_dict self σ))
  ∧ (comp_params c = None ∨ comp_params c = Some "" →
     Component.params_dict self σ = (Ok ∅, σ)).
Proof.
  intros E. rewrite (params_dict_run _ _ _ E). split; [reflexivity|]. split.
  - intros self' c' σ' E' Hp. rewrite (params_dict_run _ _ _ E').
    cbn [fst]. rewrite !params_dict_attrs_rule, Hp. reflexivity.
  - unfold Component.params_dict_attrs.
    intros [-> | ->]; reflexivity.
Qed.
End ParamsDictFacts.

(** ** Component: has_model, center and display *)

Section ComponentFacts.
Context `{Host} `{Globals}.

(** [has_model] on a named component: the two branches of the code
    against the key of the specification. *)
Lemma has_model_run
    (self : loc) (c : ComponentAttrs) (name : string) (σ : state) :
  heap σ !! self = Some (ComponentObj c) →
  comp_component c = Some name →
  Component.has_model self σ
    = (Ok (bool_decide
             (Spec.lookup_key (comp_library c)
                (technology_name get_layout_variables) name
              ∈ INTC_ELEMENTS)), σ).
Proof.
  intros E Hname. unfold Component.has_model. run_store.
  unfold Component.has_model_attrs, Spec.lookup_key.
  rewrite Hname, !truthy_str_spec.
  destruct (comp_library c) as [l|]; cbn; [|reflexivity].
  destruct (Spec.nonempty l), (Spec.nonempty name); reflexivity.
Qed.

(** C6, as the code has it.  For a Component whose name is a string,
    [has_model] returns whether the lookup key is in the registry, true
    exactly when it is and false when it is not, and leaves the store as
    it was.  The key is taken from the library (lower-cased, ['/']
    replaced by ['::'], then ['::'] and the lower-cased name) only when
    the library and the name are both set and not empty; in every other
    case it is ["design kits::"], the lower-cased technology name, ['::']
    and the lower-cased name. *)
Theorem has_model_key
    (self : loc) (c : ComponentAttrs) (name : string) (σ : state) :
  heap σ !! self = Some (ComponentObj c) →
  comp_component c = Some name →
  ∃ b : bool,
    Component.has_model self σ = (Ok b, σ)
    ∧ (b = true ↔
       Spec.lookup_key (comp_library c)
         (technology_name get_layout_variables) name ∈ INTC_ELEMENTS).
Proof.
  intros E Hname. eexists. split; [apply has_model_run; eassumption|].
  apply bool_decide_eq_true.
Qed.

(** C3, as the code has it.  [__init__] sets [center] to
    [polygon.bbox().center()] once; nothing recomputes it.  Right after
    construction the two agree, and after the [polygon] attribute is
    replaced [center] is still the centre of the bounding box of the
    polygon given at construction. *)
Theorem center_computed_once
    (a : Component.kwargs) (pg v : Polygon) (items : list loc) (σ : state) :
  Component.polygon a = Some pg →
  heap σ !! default default_pins (Component.pins a) = Some (ListObj items) →
  ∃ (self : loc) (c : ComponentAttrs) (σ1 σ2 : state),
    Component.new a σ = (Ok self, σ1)
    ∧ heap σ1 !! self = Some (ComponentObj c)
    ∧ comp_polygon c = Some pg
    ∧ comp_center c = Box_center (Polygon_bbox pg)
    ∧ Component.assign_polygon self v σ1 = (Ok tt, σ2)
    ∧ heap σ2 !! self = Some (ComponentObj (Component.set_polygon (Some v) c))
    ∧ comp_polygon (Component.set_polygon (Some v) c) = Some v
    ∧ comp_center (Component.set_polygon (Some v) c)
        = Box_center (Polygon_bbox pg).
Proof.
  intros Hpg Hpins.
  unfold Component.new, Component.__init__, Component.assign_polygon,
    Component.update, alloc.
  destruct (Component.pins a) as [l|]; cbn in Hpins;
    run_store; rewrite Hpg; run_store;
    eexists _, _, _, _; (split; [reflexivity|]);
    run_store; repeat split; cbn; rewrite ?lookup_insert_eq; reflexivity.
Qed.

(** A component built without a [pins] argument holds the list object
    of the default, whatever else it was built from. *)
Lemma init_default_pins
    (a : Component.kwargs) (pg : Polygon) (items : list loc) (σ : state) :
  Component.pins a = None →
  Component.polygon a = Some pg →
  heap σ !! default_pins = Some (ListObj items) →
  ∃ c : ComponentAttrs,
    Component.__init__ a σ = (Ok c, σ) ∧ comp_pins c = default_pins.
Proof.
  intros Hpins Hpg Hdef. unfold Component.__init__.
  rewrite Hpins, Hpg. run_store. eexists. split; reflexivity.
Qed.

Lemma pin_entries_ok (σ : state) (items : list loc) (k : PIN_TYPES) :
  Forall (pin_shown σ) items →
  ∃ es, Component.pin_entries items k σ = (Ok es, σ).
Proof.
  induction 1 as [|l items (p & ctr & n & Hp & Hc & Hn) _ (es & IH)].
  - eexists. reflexivity.
  - cbn [Component.pin_entries]. unfold mbind at 1.
    rewrite (read_pin_at _ _ _ Hp).
    destruct (Component.type_is (pin_type p) k); [|eauto].
    rewrite Hc. unfold mbind, getattr, ret.
    rewrite (read_net_at _ _ _ Hn), IH. eauto.
Qed.

Lemma pin_shown_frame (σ : state) (self l : loc) (c c' : ComponentAttrs)
    (out : list line) :
  heap σ !! self = Some (ComponentObj c) →
  pin_shown σ l →
  pin_shown (mkState (<[self := ComponentObj c']> (heap σ)) out) l.
Proof.
  intros Hself (p & ctr & n & Hp & Hc & Hn).
  exists p, ctr, n. cbn.
  rewrite !lookup_insert_ne by congruence. auto.
Qed.

(** C9, as the code has it.  [display] first stores [len(c.pins)] in
    [npins]; this is the one attribute it writes.  When the component has
    a name and every pin of its list can be listed, [display] returns the
    text it printed, and the store afterwards differs from the store
    before only in [npins] of the component; no Pin and no Net is
    changed. *)
Theorem display_effect
    (self : loc) (c : ComponentAttrs) (items : list loc) (name : string)
    (σ : state) :
  heap σ !! self = Some (ComponentObj c) →
  heap σ !! comp_pins c = Some (ListObj items) →
  comp_component c = Some name →
  Forall (pin_shown σ) items →
  ∃ text : Report,
    Component.display self σ
      = (Ok text,
         mkState
           (<[self := ComponentObj
                        (Component.set_npins (Z.of_nat (length items)) c)]>
              (heap σ))
           (stdout σ ++ [ReportLine text]))
    ∧ r_npins text = Z.of_nat (length items)
    ∧ (comp_npins c = Z.of_nat (length items) →
       <[self := ComponentObj
                   (Component.set_npins (Z.of_nat (length items)) c)]>
         (heap σ) = heap σ).
Proof.
  intros Hself Hpins Hname Hshown.
  set (c1 := Component.set_npins (Z.of_nat (length items)) c).
  set (σ1 := mkState (<[self := ComponentObj c1]> (heap σ)) (stdout σ)).
  assert (Hself1 : heap σ1 !! self = Some (ComponentObj c1))
    by apply lookup_insert_eq.
  assert (Hpins1 : heap σ1 !! comp_pins c1 = Some (ListObj items)).
  { cbn. rewrite lookup_insert_ne by congruence. exact Hpins. }
  assert (Hshown1 : Forall (pin_shown σ1) items).
  { eapply Forall_impl; [exact Hshown|].
    intros l. apply pin_shown_frame with (c := c). exact Hself. }
  destruct (pin_entries_ok σ1 items OPTICAL Hshown1) as (o & Ho).
  destruct (pin_entries_ok σ1 items ELECTRICAL Hshown1) as (e & He).
  destruct (pin_entries_ok σ1 items OPTICALIO Hshown1) as (io & Hio).
  pose proof (has_model_run self c1 name σ1 Hself1 Hname) as Hm.
  eexists. unfold Component.display.
  unfold Component.update, Component.pins_of_type in *.
  unfold mbind at 1. rewrite (read_component_at _ _ _ Hself).
  unfold mbind at 1. unfold len at 1. unfold mbind at 1.
  rewrite (read_list_at _ _ _ Hpins). unfold ret at 1.
  unfold mbind at 1. unfold mbind at 1.
  rewrite (read_component_at _ _ _ Hself). unfold store at 1.
  fold c1. fold σ1.
  unfold mbind at 1. rewrite (read_component_at _ _ _ Hself1).
  unfold mbind at 1. unfold mbind at 1. rewrite (read_list_at _ _ _ Hpins1).
  rewrite Ho.
  unfold mbind at 1. unfold mbind at 1. rewrite (read_list_at _ _ _ Hpins1).
  rewrite He.
  unfold mbind at 1. unfold mbind at 1. rewrite (read_list_at _ _ _ Hpins1).
  rewrite Hio.
  unfold mbind at 1. rewrite Hm.
  unfold mbind, print, ret. cbn. split; [reflexivity|].
  split; [reflexivity|].
  intros Hn. apply insert_id. rewrite Hself. subst c1.
  rewrite <- Hn. destruct c; reflexivity.
Qed.
End ComponentFacts.

(** ** The integer host satisfies the laws *)

Section IntHostLaws.
Import IntHost.

Lemma apply_mul (t1 t2 : ITrans) (p : IPoint) :
  apply (mul t2 t1) p = apply t2 (apply t1 p).
Proof.
  destruct t1 as [r1 m1 [dx1 dy1]], t2 as [r2 m2 [dx2 dy2]], p as [x y].
  unfold apply, mul, linear, add.
  destruct r1, r2, m1, m2; cbn; f_equal; lia.
Qed.

(** The orthogonal transformations act on paths: transforming twice is
    transforming by the product. *)
Lemma IntHost_transformed_mul (pa : list IPoint) (t1 t2 : ITrans) :
  @Path_transformed host (@Path_transformed host pa t1) t2
    = @Path_transformed host pa (@Trans_mul host t2 t1).
Proof.
  cbn. rewrite map_map. apply map_ext.
  intros p. symmetry. apply apply_mul.
Qed.

(** On the integer host with orthogonal transformations, the two ways
    of transforming a path-based pin with at least two points leave the
    same store, whatever the pin and the transformations. *)
Lemma IntHost_transform_composition
    (self : loc) (p : @PinAttrs host) (pa : list IPoint) (t1 t2 : ITrans)
    (σ : @state host) :
  heap σ !! self = Some (PinObj p) →
  pin_path p = Some pa → pin_polygon p = None →
  (2 ≤ length pa)%nat →
  (let! _ := Pin.transform self t1 in Pin.transform self t2) σ
    = Pin.transform self (@Trans_mul host t2 t1) σ.
Proof.
  intros Hself Hpath Hpoly Hlen.
  destruct pa as [|x0 [|x1 xs]]; cbn in Hlen; try lia.
  rewrite (transform_twice self p (x0 :: x1 :: xs) t1 t2 σ
             (apply t1 x0) (apply t1 x1) (apply t2 (apply t1 x0))
             (apply t2 (apply t1 x1)) (map (apply t1) xs)
             (map (apply t2) (map (apply t1) xs)) Hself Hpath Hpoly
             eq_refl eq_refl).
  rewrite (transform_path_pin self p (x0 :: x1 :: xs) (@Trans_mul host t2 t1)
             σ (apply (mul t2 t1) x0) (apply (mul t2 t1) x1)
             (map (apply (mul t2 t1)) xs) Hself Hpath Hpoly eq_refl).
  rewrite IntHost_transformed_mul. cbn [Trans_mul host].
  rewrite !apply_mul. reflexivity.
Qed.
End IntHostLaws.

(** ** Runs on the integer host *)

Section Runs.
Import IntHost Examples.

(** The optical pin on the path from (0,0) to (10,0) has its center at
    (5,0) and points along (10,0). *)
Lemma Pin_init_two_point_path_run :
  ∃ pin,
    @Pin.__init__ host g0 (Some [(0, 0); (10, 0)]) (Some OPTICAL) None None
      None None (Some "opt1") = Ok (pin, [])
    ∧ pin_center pin = Some (5, 0)
    ∧ pin_rotation pin = RotAngle (10, 0)
    ∧ pin_path pin = Some [(0, 0); (10, 0)]
    ∧ pin_type pin = Some OPTICAL.
Proof.
  apply (@Pin_init_two_point_path host g0 [(0, 0); (10, 0)] (0, 0) (10, 0)).
  reflexivity.
Defined.

(** A path of three points gives a Pin, not an error: rotation 0, the
    message printed. *)
Lemma Pin_init_three_points_no_error :
  ∃ pin out,
    @Pin.__init__ host g0 (Some [(0, 0); (5, 0); (5, 5)]) (Some OPTICAL)
      None None None None (Some "opt1") = Ok (pin, out)
    ∧ pin_rotation pin = RotInt 0
    ∧ pin_center pin = None.
Proof. eexists _, _. repeat split. Qed.

Lemma Pin_init_invalid_path_run :
  @Pin.__init__ host g0 (Some [(0, 0); (5, 0); (5, 5)]) (Some OPTICAL)
    None None None None (Some "opt1")
  = Ok (mkPin (Some OPTICAL) 1%positive (Some "opt1") None
          (Some [(0, 0); (5, 0); (5, 5)]) None None (RotInt 0) None,
        [Message Pin.invalid_pin_message]).
Proof.
  apply (@Pin_init_invalid_path host g0 [(0, 0); (5, 0); (5, 5)]).
  simpl. lia.
Defined.

(** C4 at a box pin.  [transform] by a move of 100 units leaves an
    ELECTRICAL pin where it was: the box and the center (5,5) are
    unchanged, although the moved box has its center at (105,5).  The
    reference passed in is returned. *)
Theorem transform_leaves_box_pin_in_place :
  ∃ (p : loc) (before : PinAttrs),
    fst (move_electrical_pin (@import_state host g0))
      = Ok (p, p, before, before)
    ∧ pin_type before = Some ELECTRICAL
    ∧ pin_box before = Some (Some ((0, 0), (10, 10)))
    ∧ pin_center before = Some (5, 5)
    ∧ center (apply shift (0, 0), apply shift (10, 10)) = (105, 5).
Proof. eexists _, _. split; [reflexivity|]. repeat split. Qed.

(** Turning and then mirroring the optical pin gives the center and
    rotation of the composed transformation. *)
Lemma transform_composition_run :
  ∃ (σ12 σ21 : state) (q12 q21 : PinAttrs),
    (let! _ := Pin.transform 5%positive turn in
     Pin.transform 5%positive mirrored) store5 = (Ok 5%positive, σ12)
    ∧ Pin.transform 5%positive (Trans_mul mirrored turn) store5
        = (Ok 5%positive, σ21)
    ∧ heap σ12 !! 5%positive = Some (PinObj q12)
    ∧ heap σ21 !! 5%positive = Some (PinObj q21)
    ∧ pin_path q12
        = Some (Path_transformed (Path_transformed [(0, 0); (10, 0)] turn)
                  mirrored)
    ∧ pin_path q21
        = Some (Path_transformed [(0, 0); (10, 0)] (Trans_mul mirrored turn))
    ∧ pin_center q12 = Some (Point_mul (Point_add (3, -16) (3, -26)) (1 # 2))
    ∧ pin_rotation q12 = RotAngle (angle_vector (Point_sub (3, -26) (3, -16)))
    ∧ pin_center q21 = Some (Point_mul (Point_add (3, -16) (3, -26)) (1 # 2))
    ∧ pin_rotation q21 = RotAngle (angle_vector (Point_sub (3, -26) (3, -16)))
    ∧ (Path_transformed (Path_transformed [(0, 0); (10, 0)] turn) mirrored
         = Path_transformed [(0, 0); (10, 0)] (Trans_mul mirrored turn) →
       pin_center q12 = pin_center q21
       ∧ pin_rotation q12 = pin_rotation q21
       ∧ σ12 = σ21).
Proof.
  apply (@transform_composition host 5%positive pin5 [(0, 0); (10, 0)]
           turn mirrored store5 (0, 20) (0, 30) (3, -16) (3, -26)
           (3, -16) (3, -26) [] [] []).
  - reflexivity.
  - reflexivity.
  - reflexivity.
  - reflexivity.
  - reflexivity.
  - reflexivity.
Defined.

(** C7 with magnifications.  The pin on the path from (0,0) to (2,4) is
    magnified by 3/10 and then by 10: the first step rounds (0.6, 1.2)
    to (1,1), so the pin ends on the path to (10,10), with center (5,5)
    and the direction of (10,10), 45 degrees.  Magnified once by the
    product 3 it ends on the path to (6,12), with center (3,6) and the
    direction of (6,12), about 63 degrees. *)
Theorem transform_in_steps_rounds_twice :
  ∃ q12 q21 : @PinAttrs MagHost.host,
    fst (MagHost.in_steps (3 # 10) 10 (@import_state MagHost.host g0)) = Ok q12
    ∧ fst (MagHost.at_once (3 # 10) 10 (@import_state MagHost.host g0)) = Ok q21
    ∧ pin_path q12 = Some [(0, 0); (10, 10)]
    ∧ pin_center q12 = Some (5, 5)
    ∧ pin_rotation q12 = @RotAngle MagHost.host (10, 10)
    ∧ pin_path q21 = Some [(0, 0); (6, 12)]
    ∧ pin_center q21 = Some (3, 6)
    ∧ pin_rotation q21 = @RotAngle MagHost.host (6, 12)
    ∧ pin_center q12 ≠ pin_center q21
    ∧ pin_rotation q12 ≠ pin_rotation q21
    ∧ 10 * 12 ≠ 10 * 6.
Proof.
  exists (@mkPin MagHost.host (Some OPTICAL) 1%positive (Some "opt1") None
            (Some [(0, 0); (10, 10)]) None (Some (5, 5))
            (@RotAngle MagHost.host (10, 10)) (Some None)),
         (@mkPin MagHost.host (Some OPTICAL) 1%positive (Some "opt1") None
            (Some [(0, 0); (6, 12)]) None (Some (3, 6))
            (@RotAngle MagHost.host (6, 12)) (Some None)).
  split; [reflexivity|]. split; [reflexivity|].
  cbn [pin_path pin_center pin_rotation].
  repeat (split; [reflexivity|]).
  repeat split; discriminate.
Qed.

(** C2 at the input of the specification.  The token [c=[1,2,3]] has no ['.'] and no
    ['e'], so its value goes to [int], which raises. *)
Lemma params_dict_bracketed_integers_raise :
  Component.params_dict 5%positive
    (store_with (component5 (Some "wg") None (Some "a=5 b=1.5u c=[1,2,3]")))
  = (Raise ValueError,
     store_with (component5 (Some "wg") None (Some "a=5 b=1.5u c=[1,2,3]"))).
Proof. reflexivity. Qed.

Lemma params_dict_rule_run :
  Component.params_dict 5%positive
    (store_with (component5 (Some "wg") None (Some "a=5 b=1.5u c=[1.5,2,3]")))
  = (Ok (<["a" := VInt 5]>
          (<["b" := VFloat (mkDecimal false 15 (-1))]>
            (<["c" := VStr "[1.5,2,3]"]> ∅))),
     store_with (component5 (Some "wg") None (Some "a=5 b=1.5u c=[1.5,2,3]"))).
Proof.
  apply (@params_dict_rule host 5%positive
           (component5 (Some "wg") None (Some "a=5 b=1.5u c=[1.5,2,3]"))).
  - reflexivity.
  - reflexivity.
Defined.

Lemma params_dict_deterministic_empty_run :
  Component.params_dict 5%positive
    (store_with (component5 (Some "wg") None None))
  = (Ok ∅, store_with (component5 (Some "wg") None None)).
Proof.
  apply (@params_dict_deterministic_empty host 5%positive
           (component5 (Some "wg") None None)).
  - reflexivity.
  - left. reflexivity.
Defined.

(** C6 at a library with an empty component name.  The key made from
    the library, ["l::"], is registered, but [has_model] looks up the
    design-kit key and answers false. *)
Lemma has_model_empty_name_ignores_library :
  @Component.has_model host g1 5%positive
    (store_with (component5 (Some "") (Some "L") None))
  = (Ok false, store_with (component5 (Some "") (Some "L") None))
  ∧ Spec.stated_key (Some "L") "EBeam" "" ∈ @INTC_ELEMENTS g1.
Proof. split; [reflexivity|]. vm_compute. set_solver. Qed.

Lemma has_model_key_run :
  ∃ b : bool,
    @Component.has_model host g2 5%positive
      (store_with (component5 (Some "Waveguide") None None))
    = (Ok b, store_with (component5 (Some "Waveguide") None None))
    ∧ (b = true ↔
       Spec.lookup_key None "EBeam" "Waveguide" ∈ @INTC_ELEMENTS g2).
Proof.
  apply (@has_model_key host g2 5%positive
           (component5 (Some "Waveguide") None None) "Waveguide").
  - reflexivity.
  - reflexivity.
Defined.

(** C3 after a replacement.  The component is built on the square
    around (5,5); once [polygon] holds the square around (110,110),
    [center] is still (5,5). *)
Lemma center_stale_after_polygon_replaced :
  ∃ a : ComponentAttrs,
    fst (replace_polygon (@import_state host g0)) = Ok a
    ∧ comp_polygon a = Some far_square
    ∧ comp_center a = (5, 5)
    ∧ Component.bbox_center (comp_polygon a) = Ok (110, 110)
    ∧ Ok (comp_center a) ≠ Component.bbox_center (comp_polygon a).
Proof.
  eexists. split; [reflexivity|]. repeat split.
  intros E. vm_compute in E. discriminate.
Qed.

Lemma center_computed_once_run :
  ∃ (self : loc) (c : ComponentAttrs) (σ1 σ2 : state),
    @Component.new host g0 (kw (Some "wg") None None None (Some square))
      (@import_state host g0) = (Ok self, σ1)
    ∧ heap σ1 !! self = Some (ComponentObj c)
    ∧ comp_polygon c = Some square
    ∧ comp_center c = center (bbox square)
    ∧ Component.assign_polygon self far_square σ1 = (Ok tt, σ2)
    ∧ heap σ2 !! self
        = Some (ComponentObj (Component.set_polygon (Some far_square) c))
    ∧ comp_polygon (Component.set_polygon (Some far_square) c)
        = Some far_square
    ∧ comp_center (Component.set_polygon (Some far_square) c)
        = center (bbox square).
Proof.
  apply (@center_computed_once host g0
           (kw (Some "wg") None None None (Some square)) square far_square
           [] (@import_state host g0)).
  - reflexivity.
  - reflexivity.
Defined.

(** C9 after an append.  The component was built on an empty list, so
    [npins] is 0; a pin is appended to the list; [display] then sets
    [npins] to 1. *)
Lemma display_writes_npins :
  ∃ (before after : ComponentAttrs) (text : Report),
    fst (display_after_append (@import_state host g0))
      = Ok (before, text, after)
    ∧ comp_npins before = 0
    ∧ comp_npins after = 1
    ∧ before ≠ after.
Proof.
  eexists _, _, _. split; [reflexivity|]. repeat split.
  intros E. apply (f_equal comp_npins) in E. vm_compute in E. discriminate.
Qed.

Lemma display_effect_run :
  ∃ text : Report,
    @Component.display host g0 5%positive
      (store_with (component5 (Some "wg") None None))
    = (Ok text,
       mkState
         (<[5%positive := ComponentObj
              (Component.set_npins 1 (component5 (Some "wg") None None))]>
            (heap (store_with (component5 (Some "wg") None None))))
         [ReportLine text])
    ∧ r_npins text = 1
    ∧ (0 = 1 →
       <[5%positive := ComponentObj
            (Component.set_npins 1 (component5 (Some "wg") None None))]>
         (heap (store_with (component5 (Some "wg") None None)))
       = heap (store_with (component5 (Some "wg") None None))).
Proof.
  apply (@display_effect host g0 5%positive
           (component5 (Some "wg") None None) [7%positive] "wg").
  - reflexivity.
  - reflexivity.
  - reflexivity.
  - constructor; [|constructor].
    exists pin5, (5, 0), (Net.__init__ None None None).
    repeat split; reflexivity.
Defined.

(** C10 at two components built with the defaults.  A pin appended to
    the [pins] of the first is an item of the [pins] of the second: the
    two hold the one list that was built for the default. *)
Theorem default_pins_list_is_shared :
  ∃ p : loc,
    fst (append_to_first_of_two (@import_state host g0))
      = Ok (p, [p], [p]).
Proof. vm_compute. eexists. reflexivity. Qed.
End Runs.

(** * Further properties *)

(** ** Pin: construction *)

Section PinInitFacts.
Context `{Host} `{Globals}.

(** X1. When several geometries are passed to [Pin.__init__] (the path,
    if any, having two points), [center] comes from the polygon if there
    is one, else from the box if there is one, else from the path, and
    does not exist without any; [rotation] is 0 with a polygon, else the
    direction of the path, else 0.  A pin with a path and a box so has
    the center of the box and the rotation of the path. *)
Theorem Pin_init_precedence
    (path : option Path) (_type : option PIN_TYPES) (box : option Box)
    (polygon : option Polygon) (component net : option loc)
    (pin_name : option string) :
  valid_path path →
  ∃ pin,
    Pin.__init__ path _type box polygon component net pin_name = Ok (pin, [])
    ∧ pin_center pin
        = match polygon, box with
          | Some pg, _ => Some (Box_center (Polygon_bbox pg))
          | None, Some b => Some (Box_center b)
          | None, None => path_center path
          end
    ∧ pin_rotation pin
        = match polygon with
          | Some _ => RotInt 0
          | None => path_rotation path
          end
    ∧ pin_box pin = Some box
    ∧ pin_path pin = path
    ∧ pin_polygon pin = polygon.
Proof.
  intros Hvalid. unfold Pin.__init__, path_center, path_rotation.
  destruct path as [pa|]; cbn in Hvalid.
  - destruct (Path_get_points pa) as [|p0 [|p1 [|p2 r]]]; try discriminate.
    cbn. eexists. split; [reflexivity|].
    destruct polygon, box; cbn; auto.
  - eexists. split; [reflexivity|].
    destruct polygon, box; cbn; auto.
Qed.

(** X2. [Pin.__init__] raises no exception, whatever its arguments.  The
    net of the new pin is the one passed, or the disconnected net when
    none is passed; the "invalid Pin" message is printed exactly when a
    path is passed whose number of points is not two; and the pin has a
    [center] attribute exactly when the path is acceptable and a path, a
    box or a polygon is passed. *)
Theorem Pin_init_total
    (path : option Path) (_type : option PIN_TYPES) (box : option Box)
    (polygon : option Polygon) (component net : option loc)
    (pin_name : option string) :
  ∃ pin out,
    Pin.__init__ path _type box polygon component net pin_name = Ok (pin, out)
    ∧ pin_net pin = default NET_DISCONNECTED net
    ∧ pin_type pin = _type
    ∧ (out = [] ↔ valid_path path)
    ∧ (is_Some (pin_center pin) ↔
       valid_path path
       ∧ (is_Some path ∨ is_Some box ∨ is_Some polygon)).
Proof.
  unfold Pin.__init__.
  destruct path as [pa|]; cbn [valid_path].
  - destruct (Nat.eqb_spec (length (Path_get_points pa)) 2) as [E|E].
    + destruct (Path_get_points pa) as [|p0 [|p1 [|p2 r]]]; try discriminate.
      cbn. eexists _, _. split; [reflexivity|].
      split; [destruct net, polygon, box; reflexivity|].
      split; [destruct polygon, box; reflexivity|].
      split; [tauto|].
      split; [intros _; split; [reflexivity|left; eauto]|intros _].
      destruct polygon, box; cbn; eauto.
    + eexists _, _. split; [reflexivity|].
      split; [destruct net; reflexivity|]. split; [reflexivity|].
      split; [split; [discriminate|contradiction]|].
      cbn. split; [intros [x Hx]; discriminate|intros [Hv _]; contradiction].
  - eexists _, _. split; [reflexivity|].
    split; [destruct net, polygon, box; reflexivity|].
    split; [destruct polygon, box; reflexivity|].
    split; [tauto|].
    destruct polygon, box; cbn; (split; [intros Hc|intros [_ Hg]]);
      eauto; try (split; [exact I|eauto]; fail).
    + destruct Hc; discriminate.
    + destruct Hg as [[x Hx]|[[x Hx]|[x Hx]]]; discriminate.
Qed.
End PinInitFacts.

(** ** Pin: transform *)

Section PinTransformFacts.
Context `{Host} `{Globals}.

Lemma init_no_message_valid
    (path : option Path) (_type : option PIN_TYPES) (box : option Box)
    (polygon : option Polygon) (component net : option loc)
    (pin_name : option string) (pin : PinAttrs) :
  Pin.__init__ path _type box polygon component net pin_name = Ok (pin, []) →
  valid_path path.
Proof.
  unfold Pin.__init__. destruct path as [pa|]; cbn; [|auto].
  destruct (Nat.eqb_spec (length (Path_get_points pa)) 2); [auto|discriminate].
Qed.

(** X3. Moving a pin agrees with building it on the moved geometry: for
    a pin built by [Pin.__init__] from a path and a polygon (either may
    be missing) and no box, [transform(t)] leaves exactly the attributes
    that [Pin.__init__] gives on [path.transformed(t)] and
    [polygon.transformed(t)], and returns the pin.  (With a box this
    fails, the box staying where it was.) *)
Theorem transform_after_init
    (path : option Path) (polygon : option Polygon)
    (_type : option PIN_TYPES) (component net : option loc)
    (pin_name : option string) (t : Trans) (self : loc) (σ : state)
    (pin pin' : PinAttrs) :
  Pin.__init__ path _type None polygon component net pin_name = Ok (pin, []) →
  Pin.__init__ ((λ pa, Path_transformed pa t) <$> path) _type None
    ((λ pg, Polygon_transformed pg t) <$> polygon) component net pin_name
    = Ok (pin', []) →
  heap σ !! self = Some (PinObj pin) →
  Pin.transform self t σ
    = (Ok self, mkState (<[self := PinObj pin']> (heap σ)) (stdout σ)).
Proof.
  intros Hinit Hinit' Hself.
  pose proof (init_no_message_valid _ _ _ _ _ _ _ _ Hinit) as Hv.
  pose proof (init_no_message_valid _ _ _ _ _ _ _ _ Hinit') as Hv'.
  unfold Pin.__init__ in Hinit, Hinit'.
  destruct path as [pa|]; cbn in Hv, Hv', Hinit, Hinit'.
  - destruct (Path_get_points pa) as [|p0 [|p1 [|p2 r]]]; try discriminate.
    destruct (Path_get_points (Path_transformed pa t))
      as [|q0 [|q1 [|q2 r']]] eqn:Hpts; try discriminate.
    cbn in Hinit, Hinit'.
    destruct polygon as [pg|]; cbn in Hinit, Hinit';
      injection Hinit as <-; injection Hinit' as <-;
      unfold Pin.transform, Pin.update; run_store; rewrite Hpts; run_store;
      rewrite !insert_insert_eq; reflexivity.
  - destruct polygon as [pg|]; cbn in Hinit, Hinit';
      injection Hinit as <-; injection Hinit' as <-;
      unfold Pin.transform, Pin.update; run_store;
      rewrite ?insert_insert_eq; [reflexivity|].
    rewrite insert_id by exact Hself. destruct σ; reflexivity.
Qed.

(** X4. Whatever its outcome, [transform] prints nothing, touches no
    object but the pin, and keeps the type, net, name, component and box
    of the pin. *)
Theorem transform_frame
    (self : loc) (p : PinAttrs) (t : Trans) (σ σ' : state)
    (r : result loc) :
  heap σ !! self = Some (PinObj p) →
  Pin.transform self t σ = (r, σ') →
  stdout σ' = stdout σ
  ∧ (∀ l, l ≠ self → heap σ' !! l = heap σ !! l)
  ∧ ∃ q, heap σ' !! self = Some (PinObj q)
         ∧ pin_type q = pin_type p
         ∧ pin_net q = pin_net p
         ∧ pin_pin_name q = pin_pin_name p
         ∧ pin_component q = pin_component p
         ∧ pin_box q = pin_box p.
Proof.
  intros Hself Hrun.
  unfold Pin.transform, Pin.update in Hrun. revert Hrun. run_store.
  destruct (pin_path p) as [pa|] eqn:Hpath; run_store.
  - destruct (Path_get_points (Path_transformed pa t)) as [|q0 [|q1 qs]];
      run_store.
    1,2: intros [= <- <-]; cbn; split; [reflexivity|];
      (split; [intros l Hl; rewrite lookup_insert_ne by congruence; reflexivity|]);
      rewrite lookup_insert_eq; eexists; split; [reflexivity|];
      cbn; auto.
    destruct (pin_polygon p) as [pg|] eqn:Hpoly; run_store;
      intros [= <- <-]; cbn; (split; [reflexivity|]);
      (split; [intros l Hl; rewrite !lookup_insert_ne by congruence; reflexivity|]);
      rewrite lookup_insert_eq; eexists; (split; [reflexivity|]);
      cbn; auto.
  - destruct (pin_polygon p) as [pg|] eqn:Hpoly; run_store;
      intros [= <- <-]; cbn; (split; [reflexivity|]).
    + split; [intros l Hl; rewrite !lookup_insert_ne by congruence; reflexivity|].
      rewrite lookup_insert_eq. eexists. split; [reflexivity|]. cbn. auto.
    + split; [reflexivity|]. eauto 10.
Qed.

(** X5. When the transformed path has fewer than two points,
    [transform] raises [IndexError] after it has replaced the path: the
    pin keeps its old center and rotation beside the new path. *)
Theorem transform_short_path
    (self : loc) (p : PinAttrs) (pa : Path) (t : Trans) (σ : state) :
  heap σ !! self = Some (PinObj p) →
  pin_path p = Some pa →
  (length (Path_get_points (Path_transformed pa t)) < 2)%nat →
  Pin.transform self t σ
    = (Raise IndexError,
       mkState
         (<[self := PinObj (Pin.set_path (Some (Path_transformed pa t)) p)]>
            (heap σ))
         (stdout σ)).
Proof.
  intros Hself Hpath Hlen.
  unfold Pin.transform, Pin.update. run_store. rewrite Hpath. run_store.
  destruct (Path_get_points (Path_transformed pa t)) as [|q0 [|q1 qs]];
    cbn in Hlen; try lia; reflexivity.
Qed.
End PinTransformFacts.

(** ** Diagnostic output of pins and nets *)

Section DisplayFacts.
Context `{Host} {Fmt : Format}.



(** X6. [Pin.display] needs the pin's component and center: for a pin
    without a component (the default of the constructor) or without a
    [center] attribute it raises [AttributeError], prints nothing and
    leaves the store as it was. *)
Theorem Pin_display_needs_component
    (self : loc) (p : PinAttrs) (σ : state) :
  heap σ !! self = Some (PinObj p) →
  pin_component p = None ∨ pin_center p = None →
  Pin.display self σ = (Raise AttributeError, σ).
Proof.
  intros Hself Hmissing. unfold Pin.display. run_store.
  destruct (pin_component p) as [c|]; cbn; [|reflexivity].
  destruct Hmissing as [|Hc]; [discriminate|].
  destruct (heap σ !! c) as [[| | |comp]|]; cbn; try reflexivity.
  destruct (heap σ !! pin_net p) as [[|n| |]|]; cbn; try reflexivity.
  rewrite Hc. reflexivity.
Qed.

End DisplayFacts.

Section NetDisplayFacts.
Context `{Host} {Fmt : Format}.

Lemma component_of_frame (p : PinAttrs) (σ σ' : state)
    (r : result ComponentAttrs) :
  Net.component_of p σ = (r, σ') → σ' = σ.
Proof.
  unfold Net.component_of. run_store.
  destruct (pin_component p) as [c|]; cbn; [|congruence].
  destruct (heap σ !! c) as [[| | |comp]|]; cbn; congruence.
Qed.

Lemma pin_rows_frame (ps : list loc) (σ σ' : state)
    (r : result (list fmt_arg)) :
  Net.pin_rows ps σ = (r, σ') → σ' = σ.
Proof.
  revert r σ'. induction ps as [|o ps IH]; intros r σ'; cbn.
  - intros [= <- <-]. reflexivity.
  - unfold mbind at 1, read_pin at 1.
    destruct (heap σ !! o) as [[| |p|]|]; cbn; try congruence.
    unfold mbind at 1. destruct (pin_center p) as [ctr|]; cbn; [|congruence].
    unfold mbind at 1.
    destruct (Net.component_of p σ) as [[c|e] σ1] eqn:Hc;
      pose proof (component_of_frame _ _ _ _ Hc) as ->; [|congruence].
    unfold mbind at 1. rewrite Hc. unfold mbind at 1.
    destruct (Net.pin_rows ps σ) as [[rows|e] σ2] eqn:Hr;
      pose proof (IH _ _ eq_refl) as ->; unfold ret; congruence.
Qed.

Lemma pin_rows_ok (ps : list loc) (σ : state) :
  Forall (pin_printable σ) ps →
  ∃ rows, Net.pin_rows ps σ = (Ok rows, σ) ∧ length rows = length ps.
Proof.
  induction 1 as [|o ps (p & ctr & cl & c & n & Hp & Hc & Hcl & Hcomp & Hn)
                    _ (rows & IH & Hlen)]; cbn.
  - eexists. split; reflexivity.
  - unfold Net.component_of. run_store. rewrite Hc, Hcl. run_store.
    rewrite IH. cbn. eexists. split; [reflexivity|]. cbn. congruence.
Qed.

(** [Net.display] changes no object, and prints one line or, when it
    raises, none. *)
Lemma Net_display_frame (self : loc) (σ σ' : state) (r : result unit) :
  Net.display self σ = (r, σ') →
  heap σ' = heap σ
  ∧ match r with
    | Ok _ => ∃ m, stdout σ' = (stdout σ ++ [Message m])%list
    | Raise _ => stdout σ' = stdout σ
    end.
Proof.
  unfold Net.display. unfold mbind at 1, read_net at 1.
  destruct (heap σ !! self) as [[|n| |]|]; cbn;
    try (intros [= <- <-]; auto; fail).
  unfold mbind at 1.
  destruct (net_pins n) as [l|]; cbn;
    [|intros [= <- <-]; auto].
  unfold read_list at 1.
  destruct (heap σ !! l) as [[items| | |]|]; cbn;
    try (intros [= <- <-]; auto; fail).
  unfold mbind at 1.
  destruct (Net.pin_rows items σ) as [[rows|e] σ1] eqn:Hr;
    apply pin_rows_frame in Hr as ->; cbn;
    intros [= <- <-]; cbn; eauto.
Qed.

(** X8. [Net.display] changes no object, prints one line when it
    returns and none when it raises; it returns when the net has a list
    of pins each of which has a center and a component. *)
Theorem Net_display_output (self : loc) (σ : state) :
  (∀ r σ', Net.display self σ = (r, σ') →
     heap σ' = heap σ
     ∧ match r with
       | Ok _ => ∃ m, stdout σ' = (stdout σ ++ [Message m])%list
       | Raise _ => stdout σ' = stdout σ
       end)
  ∧ (∀ n l items,
       heap σ !! self = Some (NetObj n) →
       net_pins n = Some l →
       heap σ !! l = Some (ListObj items) →
       Forall (pin_printable σ) items →
       ∃ m, Net.display self σ
            = (Ok tt, mkState (heap σ) (stdout σ ++ [Message m])%list)).
Proof.
  split.
  - intros r σ'. apply Net_display_frame.
  - intros n l items Hself Hpins Hl Hall.
    destruct (pin_rows_ok items σ Hall) as (rows & Hr & _).
    unfold Net.display. run_store. rewrite Hpins. run_store.
    rewrite Hr. cbn. eauto.
Qed.

(** X9. A net without a list of pins, as [Net()] builds it and as the
    disconnected net is, cannot be displayed: iterating over [None]
    raises [TypeError], nothing is printed, the store is as before. *)
Theorem Net_display_without_pins (self : loc) (n : NetAttrs) (σ : state) :
  heap σ !! self = Some (NetObj n) →
  net_pins n = None →
  Net.display self σ = (Raise TypeError, σ).
Proof.
  intros Hself Hpins. unfold Net.display. run_store. rewrite Hpins.
  reflexivity.
Qed.
End NetDisplayFacts.

(** ** Component: construction and display *)

Section ComponentMoreFacts.
Context `{Host} `{Globals}.

(** X10. A Component cannot be built without a polygon: with the default
    [polygon=None] the constructor raises [AttributeError] at
    [polygon.bbox()], no object is created and the store is as before. *)
Theorem Component_new_without_polygon
    (a : Component.kwargs) (items : list loc) (σ : state) :
  heap σ !! default default_pins (Component.pins a) = Some (ListObj items) →
  Component.polygon a = None →
  Component.new a σ = (Raise AttributeError, σ).
Proof.
  intros Hpins Hpg. unfold Component.new, Component.__init__.
  destruct (Component.pins a) as [l|]; cbn in Hpins;
    run_store; rewrite Hpg; reflexivity.
Qed.

(** X11. A Component keeps the very list it is given, not a copy, and
    [npins] is the length of that list when the Component is built: after
    an item is appended to the list, the Component's [pins] has the new
    item while [npins] is still the old length. *)
Theorem Component_new_aliases_pins
    (a : Component.kwargs) (pg : Polygon) (l x : loc) (items : list loc)
    (σ : state) :
  Component.pins a = Some l →
  Component.polygon a = Some pg →
  heap σ !! l = Some (ListObj items) →
  ∃ (self : loc) (c : ComponentAttrs) (σ1 σ2 : state),
    Component.new a σ = (Ok self, σ1)
    ∧ list_append l x σ1 = (Ok tt, σ2)
    ∧ heap σ2 !! self = Some (ComponentObj c)
    ∧ comp_pins c = l
    ∧ heap σ2 !! comp_pins c = Some (ListObj (items ++ [x]))
    ∧ comp_npins c = Z.of_nat (length items).
Proof.
  intros Hpins Hpg Hl.
  assert (Hfresh : fresh (dom (heap σ)) ≠ l).
  { intros E. apply (is_fresh (dom (heap σ))). rewrite E.
    apply elem_of_dom. eauto. }
  unfold Component.new, Component.__init__, alloc.
  rewrite Hpins, Hpg. run_store.
  eexists _, _, _, _. split; [reflexivity|].
  unfold list_append. run_store.
  rewrite lookup_insert_ne by exact Hfresh. rewrite Hl. cbn.
  split; [reflexivity|]. cbn.
  rewrite lookup_insert_ne by congruence. rewrite lookup_insert_eq.
  split; [reflexivity|]. cbn. rewrite lookup_insert_eq. auto.
Qed.

Lemma pin_entries_run (σ : state) (items : list loc) (k : PIN_TYPES) :
  Forall (pin_shown σ) items →
  ∃ es, Component.pin_entries items k σ = (Ok es, σ)
        ∧ length es = length (List.filter (is_pin_of_type σ k) items).
Proof.
  induction 1 as [|l items (p & ctr & n & Hp & Hc & Hn) _ (es & IH & Hlen)].
  - eexists. split; reflexivity.
  - cbn [Component.pin_entries List.filter]. unfold mbind at 1.
    rewrite (read_pin_at _ _ _ Hp).
    unfold is_pin_of_type at 1. rewrite Hp. unfold Component.type_is.
    destruct (pin_type p) as [ty|]; [destruct (PIN_TYPES_eqb ty k)|]; eauto.
    rewrite Hc. unfold mbind, getattr, ret.
    rewrite (read_net_at _ _ _ Hn), IH.
    eexists. split; [reflexivity|]. cbn. congruence.
Qed.

Lemma pin_shown_after_update (σ : state) (self l : loc)
    (c c' : ComponentAttrs) (out : list line) :
  heap σ !! self = Some (ComponentObj c) →
  pin_shown σ l →
  pin_shown (mkState (<[self := ComponentObj c']> (heap σ)) out) l.
Proof.
  intros Hself (p & ctr & n & Hp & Hc & Hn).
  exists p, ctr, n. cbn.
  rewrite !lookup_insert_ne by congruence. auto.
Qed.

Lemma is_pin_of_type_after_update (σ : state) (self l : loc)
    (c c' : ComponentAttrs) (out : list line) (k : PIN_TYPES) :
  heap σ !! self = Some (ComponentObj c) →
  is_pin_of_type (mkState (<[self := ComponentObj c']> (heap σ)) out) k l
    = is_pin_of_type σ k l.
Proof.
  intros Hself. unfold is_pin_of_type. cbn.
  destruct (decide (self = l)) as [<-|Hne].
  - rewrite lookup_insert_eq, Hself. reflexivity.
  - rewrite lookup_insert_ne by exact Hne. reflexivity.
Qed.

(** [display] up to the call of [has_model]: [npins] is written, the
    three lists are built, and the outcome is that of [has_model]. *)
Lemma display_run
    (self : loc) (c : ComponentAttrs) (items : list loc) (σ : state) :
  heap σ !! self = Some (ComponentObj c) →
  heap σ !! comp_pins c = Some (ListObj items) →
  Forall (pin_shown σ) items →
  let c1 := Component.set_npins (Z.of_nat (length items)) c in
  let σ1 := mkState (<[self := ComponentObj c1]> (heap σ)) (stdout σ) in
  ∃ o e io,
    length o = length (List.filter (is_pin_of_type σ OPTICAL) items)
    ∧ length e = length (List.filter (is_pin_of_type σ ELECTRICAL) items)
    ∧ length io = length (List.filter (is_pin_of_type σ OPTICALIO) items)
    ∧ Component.display self σ
      = match Component.has_model_attrs c1 with
        | Ok model =>
            let text := mkReport (comp_basic_name c) (comp_component c)
                          (comp_idx c) (comp_instance c) (comp_trans c)
                          (comp_Dcenter c) (Z.of_nat (length items)) o e io
                          model (comp_params c) in
            (Ok text, mkState (heap σ1) (stdout σ ++ [ReportLine text])%list)
        | Raise ex => (Raise ex, σ1)
        end.
Proof.
  intros Hself Hpins Hshown c1 σ1.
  assert (Hself1 : heap σ1 !! self = Some (ComponentObj c1))
    by apply lookup_insert_eq.
  assert (Hpins1 : heap σ1 !! comp_pins c1 = Some (ListObj items)).
  { cbn. rewrite lookup_insert_ne by congruence. exact Hpins. }
  assert (Hshown1 : Forall (pin_shown σ1) items).
  { eapply Forall_impl; [exact Hshown|].
    intros l. apply pin_shown_after_update with (c := c). exact Hself. }
  destruct (pin_entries_run σ1 items OPTICAL Hshown1) as (o & Ho & Lo).
  destruct (pin_entries_run σ1 items ELECTRICAL Hshown1) as (e & He & Le).
  destruct (pin_entries_run σ1 items OPTICALIO Hshown1) as (io & Hio & Lio).
  exists o, e, io.
  split; [rewrite Lo; f_equal; apply filter_ext; intros l;
          apply is_pin_of_type_after_update with (c := c); exact Hself|].
  split; [rewrite Le; f_equal; apply filter_ext; intros l;
          apply is_pin_of_type_after_update with (c := c); exact Hself|].
  split; [rewrite Lio; f_equal; apply filter_ext; intros l;
          apply is_pin_of_type_after_update with (c := c); exact Hself|].
  unfold Component.display.
  unfold Component.update, Component.pins_of_type, Component.has_model.
  unfold mbind at 1. rewrite (read_component_at _ _ _ Hself).
  unfold mbind at 1. unfold len at 1. unfold mbind at 1.
  rewrite (read_list_at _ _ _ Hpins). unfold ret at 1.
  unfold mbind at 1. unfold mbind at 1.
  rewrite (read_component_at _ _ _ Hself). unfold store at 1.
  fold c1. fold σ1.
  unfold mbind at 1. rewrite (read_component_at _ _ _ Hself1).
  unfold mbind at 1. unfold mbind at 1. rewrite (read_list_at _ _ _ Hpins1).
  rewrite Ho.
  unfold mbind at 1. unfold mbind at 1. rewrite (read_list_at _ _ _ Hpins1).
  rewrite He.
  unfold mbind at 1. unfold mbind at 1. rewrite (read_list_at _ _ _ Hpins1).
  rewrite Hio.
  unfold mbind at 1. unfold mbind at 1.
  rewrite (read_component_at _ _ _ Hself1). unfold lift.
  destruct (Component.has_model_attrs c1) as [model|ex]; [|reflexivity].
  unfold mbind, print, ret. cbn. reflexivity.
Qed.

(** X12. [display] on a Component without a name (the constructor's
    default) raises [AttributeError] in [has_model], after it has written
    [npins]: nothing is printed, but [npins] is updated. *)
Theorem display_unnamed_component
    (self : loc) (c : ComponentAttrs) (items : list loc) (σ : state) :
  heap σ !! self = Some (ComponentObj c) →
  heap σ !! comp_pins c = Some (ListObj items) →
  Forall (pin_shown σ) items →
  comp_component c = None →
  Component.display self σ
    = (Raise AttributeError,
       mkState
         (<[self := ComponentObj
                      (Component.set_npins (Z.of_nat (length items)) c)]>
            (heap σ))
         (stdout σ)).
Proof.
  intros Hself Hpins Hshown Hname.
  destruct (display_run self c items σ Hself Hpins Hshown)
    as (o & e & io & _ & _ & _ & Hrun).
  rewrite Hrun. unfold Component.has_model_attrs. cbn.
  rewrite Hname. destruct (truthy_str (comp_library c)); reflexivity.
Qed.

Lemma type_flags (σ : state) (l : loc) :
  (Nat.b2n (is_pin_of_type σ OPTICAL l)
   + Nat.b2n (is_pin_of_type σ ELECTRICAL l)
   + Nat.b2n (is_pin_of_type σ OPTICALIO l)
   + Nat.b2n (negb (is_typed_pin σ l)))%nat = 1%nat.
Proof.
  unfold is_pin_of_type, is_typed_pin.
  destruct (heap σ !! l) as [[xs|n|p|c]|]; try reflexivity.
  destruct (pin_type p) as [[]|]; reflexivity.
Qed.

Lemma filter_types_partition (σ : state) (items : list loc) :
  (length (List.filter (is_pin_of_type σ OPTICAL) items)
   + length (List.filter (is_pin_of_type σ ELECTRICAL) items)
   + length (List.filter (is_pin_of_type σ OPTICALIO) items)
   + length (List.filter (λ l, negb (is_typed_pin σ l)) items))%nat
  = length items.
Proof.
  induction items as [|l items IH]; [reflexivity|].
  cbn [List.filter].
  pose proof (type_flags σ l) as Hflags.
  destruct (is_pin_of_type σ OPTICAL l), (is_pin_of_type σ ELECTRICAL l),
    (is_pin_of_type σ OPTICALIO l), (is_typed_pin σ l);
    cbn in Hflags |- *; lia.
Qed.

(** X13. In the text [display] returns, a pin is listed under its own
    type only: the optical, electrical and optical-IO lists together hold
    exactly the pins that have a type, so their lengths and the number of
    pins without a type add up to the number of pins reported. *)
Theorem display_lists_partition
    (self : loc) (c : ComponentAttrs) (items : list loc) (name : string)
    (σ : state) :
  heap σ !! self = Some (ComponentObj c) →
  heap σ !! comp_pins c = Some (ListObj items) →
  comp_component c = Some name →
  Forall (pin_shown σ) items →
  ∃ (text : Report) (σ' : state),
    Component.display self σ = (Ok text, σ')
    ∧ length (r_optical text)
        = length (List.filter (is_pin_of_type σ OPTICAL) items)
    ∧ length (r_electrical text)
        = length (List.filter (is_pin_of_type σ ELECTRICAL) items)
    ∧ length (r_opticalio text)
        = length (List.filter (is_pin_of_type σ OPTICALIO) items)
    ∧ r_npins text
        = Z.of_nat (length (r_optical text) + length (r_electrical text)
                    + length (r_opticalio text)
                    + length (List.filter (λ l, negb (is_typed_pin σ l)) items)).
Proof.
  intros Hself Hpins Hname Hshown.
  destruct (display_run self c items σ Hself Hpins Hshown)
    as (o & e & io & Lo & Le & Lio & Hrun).
  assert (Hm : ∃ b, Component.has_model_attrs
                      (Component.set_npins (Z.of_nat (length items)) c) = Ok b).
  { unfold Component.has_model_attrs.
    cbn [comp_library comp_component Component.set_npins]. rewrite Hname.
    destruct (comp_library c) as [[|ch l]|]; destruct name as [|ch' nm];
      cbn; eauto. }
  destruct Hm as [b Hm]. rewrite Hm in Hrun.
  eexists _, _. split; [exact Hrun|]. cbn.
  repeat (split; [assumption|]).
  rewrite Lo, Le, Lio, filter_types_partition. reflexivity.
Qed.

(** X14. [has_model] on a Component without a name raises
    [AttributeError], with or without a library, and leaves the store as
    it was. *)
Theorem has_model_unnamed_component
    (self : loc) (c : ComponentAttrs) (σ : state) :
  heap σ !! self = Some (ComponentObj c) →
  comp_component c = None →
  Component.has_model self σ = (Raise AttributeError, σ).
Proof.
  intros Hself Hname. unfold Component.has_model. run_store.
  unfold Component.has_model_attrs. rewrite Hname.
  destruct (truthy_str (comp_library c)); reflexivity.
Qed.
End ComponentMoreFacts.

(** ** display_pins *)

Section DisplayPinsFacts.
Context `{Host} `{Globals} {Fmt : Format}.











End DisplayPinsFacts.

(** ** Component: the lookup key of has_model *)

Section LookupKeyFacts.
Context `{Host} `{Globals}.

Lemma lower_ascii_idem (c : ascii) : lower_ascii (lower_ascii c) = lower_ascii c.
Proof. destruct c as [[] [] [] [] [] [] [] []]; reflexivity. Qed.

Lemma lower_idem (s : string) : lower (lower s) = lower s.
Proof.
  induction s as [|c s IH]; cbn; [reflexivity|].
  rewrite lower_ascii_idem, IH. reflexivity.
Qed.

Lemma nonempty_lower (s : string) : Spec.nonempty (lower s) = Spec.nonempty s.
Proof. destruct s; reflexivity. Qed.

Lemma nonempty_replace_slash (s : string) :
  Spec.nonempty (replace "/" "::" s) = Spec.nonempty s.
Proof.
  destruct s as [|c s]; [reflexivity|]. cbn.
  destruct (Ascii.eqb c "/"); reflexivity.
Qed.

(** X15. [has_model] looks at the library and the name of a Component
    only through their normal forms: two named Components whose names
    agree up to letter case, and whose libraries agree up to letter case
    and up to writing ['/'] for ['::'], get the same answer. *)
Theorem has_model_normal_form
    (self1 self2 : loc) (c1 c2 : ComponentAttrs) (n1 n2 : string)
    (σ1 σ2 : state) :
  heap σ1 !! self1 = Some (ComponentObj c1) →
  heap σ2 !! self2 = Some (ComponentObj c2) →
  comp_component c1 = Some n1 →
  comp_component c2 = Some n2 →
  lower n1 = lower n2 →
  (λ l, replace "/" "::" (lower l)) <$> comp_library c1
    = (λ l, replace "/" "::" (lower l)) <$> comp_library c2 →
  fst (Component.has_model self1 σ1) = fst (Component.has_model self2 σ2).
Proof.
  intros H1 H2 Hn1 Hn2 Hname Hlib.
  rewrite (has_model_run _ _ _ _ H1 Hn1), (has_model_run _ _ _ _ H2 Hn2).
  cbn [fst]. do 2 f_equal. unfold Spec.lookup_key.
  assert (Hne : Spec.nonempty n1 = Spec.nonempty n2).
  { rewrite <- (nonempty_lower n1), <- (nonempty_lower n2), Hname. reflexivity. }
  destruct (comp_library c1) as [l1|], (comp_library c2) as [l2|];
    cbn in Hlib; try discriminate; [|rewrite Hname; reflexivity].
  injection Hlib as Hlib.
  assert (Hl : Spec.nonempty l1 = Spec.nonempty l2).
  { rewrite <- (nonempty_lower l1), <- (nonempty_lower l2).
    rewrite <- (nonempty_replace_slash (lower l1)),
            <- (nonempty_replace_slash (lower l2)), Hlib. reflexivity. }
  rewrite Hl, Hne, Hlib, Hname. reflexivity.
Qed.
End LookupKeyFacts.

(** ** Component: params_dict on tokens *)

Section TokenFacts.
Context `{Host} `{Globals}.

Lemma contains_app (c : ascii) (a b : string) :
  contains c (a ++ b) = contains c a || contains c b.
Proof.
  induction a as [|x a IH]; [reflexivity|].
  change (String x a ++ b) with (String x (a ++ b)). cbn [contains].
  rewrite IH. apply orb_assoc.
Qed.

Lemma split_nonempty (sep : ascii) (s : string) : split sep s ≠ [].
Proof.
  destruct s as [|c s]; cbn [split]; [discriminate|].
  destruct (Ascii.eqb c sep); [discriminate|].
  destruct (split sep s); discriminate.
Qed.

Lemma split_no_sep (sep : ascii) (s : string) :
  contains sep s = false → split sep s = [s].
Proof.
  induction s as [|c s IH]; cbn [split contains]; [reflexivity|].
  destruct (Ascii.eqb c sep); cbn [orb]; [discriminate|].
  intros Hs. rewrite (IH Hs). reflexivity.
Qed.

Lemma split_app (sep : ascii) (a b : string) :
  split sep (a ++ String sep b) = (split sep a ++ split sep b)%list.
Proof.
  induction a as [|c a IH].
  - change ("" ++ String sep b) with (String sep b). cbn [split].
    rewrite Ascii.eqb_refl. reflexivity.
  - change (String c a ++ String sep b) with (String c (a ++ String sep b)).
    cbn [split]. destruct (Ascii.eqb c sep); [rewrite IH; reflexivity|].
    rewrite IH. pose proof (split_nonempty sep a) as Hne.
    destruct (split sep a) as [|f fs]; [contradiction|]. reflexivity.
Qed.

Lemma split_key_value (k v : string) :
  contains "=" k = false → contains "=" v = false →
  split "=" (k ++ "=" ++ v) = [k; v].
Proof.
  intros Hk Hv. change (k ++ "=" ++ v) with (k ++ String "=" v).
  rewrite split_app, (split_no_sep _ _ Hk), (split_no_sep _ _ Hv). reflexivity.
Qed.

Lemma split_key_value_more (k v w : string) :
  contains "=" k = false → contains "=" v = false →
  ∃ fs, split "=" (k ++ "=" ++ v ++ "=" ++ w) = k :: v :: fs.
Proof.
  intros Hk Hv.
  change (k ++ "=" ++ v ++ "=" ++ w) with (k ++ String "=" (v ++ String "=" w)).
  rewrite !split_app, (split_no_sep _ _ Hk), (split_no_sep _ _ Hv).
  eexists. reflexivity.
Qed.

Lemma params_dict_loop_app (t1 t2 : list string) (d : gmap string value) :
  Component.params_dict_loop (t1 ++ t2) d
    = (let? d' := Component.params_dict_loop t1 d in
       Component.params_dict_loop t2 d').
Proof.
  revert d. induction t1 as [|s t1 IH]; intros d; [reflexivity|].
  cbn [app Component.params_dict_loop].
  destruct (Component.params_dict_body d s); cbn [Py.bind]; [apply IH|reflexivity].
Qed.

Lemma params_dict_attrs_loop (c : ComponentAttrs) (p : string) :
  comp_params c = Some p →
  Component.params_dict_attrs c = Component.params_dict_loop (split " " p) ∅.
Proof.
  unfold Component.params_dict_attrs. intros ->. destruct p; reflexivity.
Qed.

Lemma nonempty_true (s : string) : s ≠ "" → Spec.nonempty s = true.
Proof.
  intros Hs. unfold Spec.nonempty.
  destruct (String.eqb_spec s ""); [contradiction|reflexivity].
Qed.

(** What one round of the loop does to the dictionary depends on the
    token alone: it leaves it, raises, or stores one entry under the
    text before the first ['=']. *)
Lemma params_dict_body_cases (s : string) :
  (s = "" ∧ ∀ d, Component.params_dict_body d s = Ok d)
  ∨ (s ≠ ""
     ∧ ((∃ e, ∀ d, Component.params_dict_body d s = Raise e)
        ∨ (∃ k q, index (split "=" s) 0 = Ok k
             ∧ ∀ d, Component.params_dict_body d s = Ok (<[k := q]> d)))).
Proof.
  destruct (String.eqb_spec s "") as [->|Hs].
  { left. split; [reflexivity|]. intros d. reflexivity. }
  right. split; [assumption|].
  assert (Hb : ∀ d, Component.params_dict_body d s = Spec.parse_token d s).
  { intros d. rewrite params_dict_body_rule, (nonempty_true _ Hs). reflexivity. }
  unfold Spec.parse_token in Hb. revert Hb.
  destruct (index (split "=" s) 1) as [v|e]; cbn [Py.bind];
    [|intros Hb; left; eauto].
  destruct (Spec.parse_value v) as [q|e]; cbn [Py.bind];
    [|intros Hb; left; eauto].
  destruct (index (split "=" s) 0) as [k|e]; cbn [Py.bind]; intros Hb;
    [right; eauto | left; eauto].
Qed.

Lemma params_dict_loop_union (ts : list string) (d1 d0 : gmap string value) :
  Component.params_dict_loop ts (d1 ∪ d0)
    = (let? r := Component.params_dict_loop ts d1 in Ok (r ∪ d0)).
Proof.
  revert d1. induction ts as [|s ts IH]; intros d1; [reflexivity|].
  cbn [Component.params_dict_loop].
  destruct (params_dict_body_cases s)
    as [[_ Hb]|[_ [[e Hb]|(k & q & _ & Hb)]]]; rewrite !Hb; cbn [Py.bind].
  - apply IH.
  - reflexivity.
  - rewrite insert_union_l. apply IH.
Qed.

Lemma params_dict_loop_keys (ts : list string) (d0 d : gmap string value) :
  Component.params_dict_loop ts d0 = Ok d →
  ∀ k, k ∈ dom d
       ↔ k ∈ dom d0 ∨ ∃ s, s ∈ ts ∧ s ≠ "" ∧ index (split "=" s) 0 = Ok k.
Proof.
  revert d0. induction ts as [|s ts IH]; intros d0 Hl k;
    cbn [Component.params_dict_loop] in Hl.
  - injection Hl as <-. split; [auto|].
    intros [?|(s & Hs & _)]; [assumption|]. apply elem_of_nil in Hs as [].
  - destruct (params_dict_body_cases s)
      as [[-> Hb]|[Hne [[e Hb]|(k' & q & Hk & Hb)]]]; rewrite Hb in Hl;
      cbn [Py.bind] in Hl; [| discriminate |].
    + rewrite (IH _ Hl k). split.
      * intros [?|(t & Ht & Hn & Hi)]; [auto|].
        right. exists t. split; [apply elem_of_cons; auto|auto].
      * intros [?|(t & Ht & Hn & Hi)]; [auto|].
        apply elem_of_cons in Ht as [->|Ht]; [contradiction|]. eauto.
    + rewrite (IH _ Hl k), dom_insert, elem_of_union, elem_of_singleton. split.
      * intros [[->|?]|(t & Ht & Hn & Hi)]; [|auto|].
        -- right. exists s. split; [apply elem_of_cons; auto|auto].
        -- right. exists t. split; [apply elem_of_cons; auto|auto].
      * intros [?|(t & Ht & Hn & Hi)]; [auto|].
        apply elem_of_cons in Ht as [->|Ht]; [|eauto].
        left. left. congruence.
Qed.

Lemma params_dict_loop_raises (ts : list string) (t : string) :
  t ∈ ts →
  (∃ e, ∀ d, Component.params_dict_body d t = Raise e) →
  ∀ d, ∃ e, Component.params_dict_loop ts d = Raise e.
Proof.
  induction ts as [|s ts IH]; intros Ht [e He] d.
  - apply elem_of_nil in Ht as [].
  - cbn [Component.params_dict_loop]. apply elem_of_cons in Ht as [<-|Ht].
    + rewrite He. eauto.
    + destruct (Component.params_dict_body d s); cbn [Py.bind]; eauto.
Qed.

Lemma params_dict_body_no_equals (d : gmap string value) (t : string) :
  t ≠ "" → contains "=" t = false →
  Component.params_dict_body d t = Raise IndexError.
Proof.
  intros Ht He. rewrite params_dict_body_rule, (nonempty_true _ Ht).
  unfold Spec.parse_token. rewrite (split_no_sep _ _ He). reflexivity.
Qed.

Lemma contains_lstrip (c : ascii) (s : string) :
  is_space c = false → contains c (lstrip s) = contains c s.
Proof.
  intros Hc. induction s as [|a s IH]; cbn [lstrip]; [reflexivity|].
  destruct (is_space a) eqn:E; [|reflexivity].
  rewrite IH. cbn [contains].
  destruct (Ascii.eqb_spec a c) as [->|]; [congruence|reflexivity].
Qed.

Lemma contains_rstrip (c : ascii) (s : string) :
  is_space c = false → contains c (rstrip s) = contains c s.
Proof.
  intros Hc. induction s as [|a s IH]; cbn [rstrip]; [reflexivity|].
  destruct (rstrip s) as [|b r] eqn:E.
  - cbn [contains] in *. rewrite <- IH.
    destruct (is_space a) eqn:Ea; cbn [contains]; [|reflexivity].
    destruct (Ascii.eqb_spec a c) as [->|]; [congruence|reflexivity].
  - cbn [contains] in *. rewrite IH. reflexivity.
Qed.

Lemma digits_value_contains (acc n : Z) (s : string) (c : ascii) :
  digits_value acc s = Some n → digit_of c = None → contains c s = false.
Proof.
  revert acc. induction s as [|a s IH]; cbn [digits_value contains];
    intros acc Hd Hc; [reflexivity|].
  destruct (digit_of a) eqn:E; [|discriminate].
  destruct (Ascii.eqb_spec a c) as [->|]; [congruence|]. cbn [orb]. eauto.
Qed.

Lemma take_sign_cases (s : string) :
  take_sign s = (false, s)
  ∨ ∃ r, (s = String "-" r ∨ s = String "+" r) ∧ snd (take_sign s) = r.
Proof.
  destruct s as [|a r]; [left; reflexivity|].
  destruct a as [[] [] [] [] [] [] [] []]; cbn; eauto.
Qed.

(** [int] rejects any text holding a character that is neither a
    digit, white space nor a sign. *)
Lemma int_raises (v : string) (c : ascii) :
  contains c v = true → digit_of c = None → is_space c = false →
  c ≠ "+"%char → c ≠ "-"%char →
  int v = Raise ValueError.
Proof.
  intros Hv Hd Hs Hplus Hminus. unfold int.
  assert (Hc : contains c (strip v) = true).
  { unfold strip. rewrite contains_rstrip, contains_lstrip; auto. }
  assert (Hbody : contains c (snd (take_sign (strip v))) = true).
  { destruct (take_sign_cases (strip v)) as [->|(r & [E|E] & ->)];
      [assumption| |]; rewrite E in Hc; cbn [contains] in Hc.
    - destruct (Ascii.eqb_spec "-" c) as [<-|]; [contradiction|assumption].
    - destruct (Ascii.eqb_spec "+" c) as [<-|]; [contradiction|assumption]. }
  destruct (take_sign (strip v)) as [neg body]. cbn [snd] in Hbody.
  destruct body as [|a r]; [reflexivity|].
  destruct (digits_value 0 (String a r)) as [n|] eqn:E; [|reflexivity].
  rewrite (digits_value_contains _ _ _ _ E Hd) in Hbody. discriminate.
Qed.

(** X16. The mapping of two texts joined by a space is the union of
    their mappings, the entries of the right text taking precedence:
    [params_dict] reads from left to right and a later token overwrites
    an earlier one with the same key.  When the left text raises, that
    exception is the result; otherwise the right text's is. *)
Theorem params_dict_joined
    (self sa sb : loc) (c ca cb : ComponentAttrs) (pa pb : string)
    (σ σa σb : state) :
  heap σ !! self = Some (ComponentObj c) →
  heap σa !! sa = Some (ComponentObj ca) →
  heap σb !! sb = Some (ComponentObj cb) →
  comp_params c = Some (pa ++ " " ++ pb) →
  comp_params ca = Some pa →
  comp_params cb = Some pb →
  fst (Component.params_dict self σ)
    = (let? da := fst (Component.params_dict sa σa) in
       let? db := fst (Component.params_dict sb σb) in
       Ok (db ∪ da)).
Proof.
  intros E Ea Eb Hp Hpa Hpb.
  rewrite (params_dict_run _ _ _ E), (params_dict_run _ _ _ Ea),
    (params_dict_run _ _ _ Eb). cbn [fst].
  rewrite (params_dict_attrs_loop _ _ Hp), (params_dict_attrs_loop _ _ Hpa),
    (params_dict_attrs_loop _ _ Hpb).
  change (pa ++ " " ++ pb) with (pa ++ String " " pb).
  rewrite split_app, params_dict_loop_app.
  destruct (Component.params_dict_loop (split " " pa) ∅) as [da|e];
    [|reflexivity].
  change (Component.params_dict_loop (split " " pb) da
          = (let? db := Component.params_dict_loop (split " " pb) ∅ in
             Ok (db ∪ da))).
  rewrite <- params_dict_loop_union, (left_id_L ∅ (∪)). reflexivity.
Qed.

(** X17. When [params_dict] returns, the keys of the mapping are exactly
    the texts before the first ['='] of the non-empty tokens of
    [params]: no token is dropped and no key is invented. *)
Theorem params_dict_keys
    (self : loc) (c : ComponentAttrs) (p : string) (d : gmap string value)
    (σ : state) :
  heap σ !! self = Some (ComponentObj c) →
  comp_params c = Some p →
  fst (Component.params_dict self σ) = Ok d →
  ∀ k, k ∈ dom d
       ↔ ∃ s, s ∈ split " " p ∧ s ≠ "" ∧ index (split "=" s) 0 = Ok k.
Proof.
  intros E Hp. rewrite (params_dict_run _ _ _ E). cbn [fst].
  rewrite (params_dict_attrs_loop _ _ Hp). intros Hl k.
  rewrite (params_dict_loop_keys _ _ _ Hl k), dom_empty, elem_of_empty.
  split; [intros [[]|?]; assumption|auto].
Qed.

(** X18. A non-empty token without ['='] makes [params_dict] raise: the
    round of the loop for that token raises IndexError, from
    [s.split('=')[1]], and nothing in the loop catches an exception. *)
Theorem params_dict_token_without_equals
    (self : loc) (c : ComponentAttrs) (p t : string) (σ : state) :
  heap σ !! self = Some (ComponentObj c) →
  comp_params c = Some p →
  t ∈ split " " p → t ≠ "" → contains "=" t = false →
  (∀ d, Component.params_dict_body d t = Raise IndexError)
  ∧ (∃ e, Component.params_dict self σ = (Raise e, σ))
  ∧ (contains " " p = false →
     Component.params_dict self σ = (Raise IndexError, σ)).
Proof.
  intros E Hp Ht Hne Heq.
  assert (Hb : ∀ d, Component.params_dict_body d t = Raise IndexError).
  { intros d. apply params_dict_body_no_equals; assumption. }
  split; [exact Hb|].
  rewrite (params_dict_run _ _ _ E), (params_dict_attrs_loop _ _ Hp). split.
  - destruct (params_dict_loop_raises _ _ Ht (ex_intro _ _ Hb) ∅) as [e ->].
    eauto.
  - intros Hs. rewrite (split_no_sep _ _ Hs) in Ht |- *.
    apply list_elem_of_singleton in Ht as <-.
    cbn [Component.params_dict_loop]. rewrite Hb. reflexivity.
Qed.

Lemma token_nonempty (k v : string) : k ++ "=" ++ v ≠ "".
Proof.
  intros Heq. apply (f_equal (contains "=")) in Heq.
  rewrite contains_app in Heq. change ("=" ++ v) with (String "=" v) in Heq.
  cbn [contains] in Heq. rewrite Ascii.eqb_refl, orb_true_r in Heq.
  discriminate.
Qed.

Lemma params_dict_body_integer_text (d : gmap string value) (k v : string)
    (ch : ascii) :
  contains "=" k = false → contains "=" v = false →
  contains "." v = false → contains "e" v = false → contains "E" v = false →
  contains ch v = true → digit_of ch = None → is_space ch = false →
  ch ≠ "+"%char → ch ≠ "-"%char →
  Component.params_dict_body d (k ++ "=" ++ v) = Raise ValueError.
Proof.
  intros Hk Hv Hdot He HE Hch Hd Hs Hplus Hminus.
  rewrite params_dict_body_rule, (nonempty_true _ (token_nonempty k v)).
  unfold Spec.parse_token. rewrite (split_key_value _ _ Hk Hv).
  change (index [k; v] 1) with (Ok (A:=string) v). cbn [Py.bind].
  unfold Spec.parse_value. rewrite Hdot, He, HE. cbn [negb orb andb].
  rewrite (int_raises v ch); auto.
Qed.

Lemma printable_not_space (ch : ascii) :
  (32 < nat_of_ascii ch)%nat → is_space ch = false.
Proof.
  intros Hn. unfold is_space. apply orb_false_intro.
  - apply andb_false_intro2, Nat.leb_gt. lia.
  - apply Nat.eqb_neq. lia.
Qed.

(** X19. A value without ['.'], ['e'] and ['E'] is read by [int], so a
    token whose value holds a printable ASCII character other than a
    digit, a sign or an underscore (a unit suffix as in [5u], a bracket
    as in [[1,2,3]]) makes [params_dict] raise; it is ValueError when
    that token is all of [params]. *)
Theorem params_dict_integer_text_raises
    (self : loc) (c : ComponentAttrs) (p k v : string) (ch : ascii)
    (σ : state) :
  heap σ !! self = Some (ComponentObj c) →
  comp_params c = Some p →
  k ++ "=" ++ v ∈ split " " p →
  contains "=" k = false → contains "=" v = false →
  contains "." v = false → contains "e" v = false → contains "E" v = false →
  contains ch v = true → digit_of ch = None →
  (32 < nat_of_ascii ch < 127)%nat →
  ch ≠ "+"%char → ch ≠ "-"%char → ch ≠ "_"%char →
  (∃ e, Component.params_dict self σ = (Raise e, σ))
  ∧ (contains " " p = false →
     Component.params_dict self σ = (Raise ValueError, σ)).
Proof.
  intros E Hp Ht Hk Hv Hdot He HE Hch Hd Hpr Hplus Hminus _.
  assert (Hs : is_space ch = false) by (apply printable_not_space; lia).
  assert (Hb : ∀ d, Component.params_dict_body d (k ++ "=" ++ v)
                    = Raise ValueError).
  { intros d. eapply params_dict_body_integer_text; eauto. }
  rewrite (params_dict_run _ _ _ E), (params_dict_attrs_loop _ _ Hp). split.
  - destruct (params_dict_loop_raises _ _ Ht (ex_intro _ _ Hb) ∅) as [e ->].
    eauto.
  - intros Hsp. rewrite (split_no_sep _ _ Hsp) in Ht |- *.
    apply list_elem_of_singleton in Ht as <-.
    cbn [Component.params_dict_loop]. rewrite Hb. reflexivity.
Qed.

Lemma params_dict_body_second_equals (d : gmap string value) (k v w : string) :
  contains "=" k = false → contains "=" v = false →
  Component.params_dict_body d (k ++ "=" ++ v ++ "=" ++ w)
    = Component.params_dict_body d (k ++ "=" ++ v).
Proof.
  intros Hk Hv.
  rewrite !params_dict_body_rule, (nonempty_true _ (token_nonempty k v)),
    (nonempty_true _ (token_nonempty k (v ++ "=" ++ w))).
  unfold Spec.parse_token. rewrite (split_key_value _ _ Hk Hv).
  destruct (split_key_value_more k v w Hk Hv) as [fs ->]. reflexivity.
Qed.

(** X20. Only the text between the first and the second ['='] of a
    token is its value: what follows a second ['='] is ignored, so that
    [k=v=w] is read as [k=v] wherever the token stands in [params]. *)
Theorem params_dict_second_equals_ignored
    (self1 self2 : loc) (c1 c2 : ComponentAttrs) (p1 p2 k v w : string)
    (pre post : list string) (σ1 σ2 : state) :
  heap σ1 !! self1 = Some (ComponentObj c1) →
  heap σ2 !! self2 = Some (ComponentObj c2) →
  comp_params c1 = Some p1 →
  comp_params c2 = Some p2 →
  split " " p1 = (pre ++ (k ++ "=" ++ v ++ "=" ++ w)%string :: post)%list →
  split " " p2 = (pre ++ (k ++ "=" ++ v)%string :: post)%list →
  contains "=" k = false → contains "=" v = false →
  fst (Component.params_dict self1 σ1) = fst (Component.params_dict self2 σ2).
Proof.
  intros E1 E2 Hp1 Hp2 Hs1 Hs2 Hk Hv.
  rewrite (params_dict_run _ _ _ E1), (params_dict_run _ _ _ E2). cbn [fst].
  rewrite (params_dict_attrs_loop _ _ Hp1), (params_dict_attrs_loop _ _ Hp2),
    Hs1, Hs2, !params_dict_loop_app.
  destruct (Component.params_dict_loop pre ∅) as [d|e]; [|reflexivity].
  cbn [Py.bind Component.params_dict_loop].
  rewrite params_dict_body_second_equals by assumption. reflexivity.
Qed.

Lemma string_app_nil_r (s : string) : s ++ "" = s.
Proof.
  induction s as [|a s IH]; [reflexivity|].
  change (String a s ++ "") with (String a (s ++ "")). rewrite IH. reflexivity.
Qed.

Lemma replace_skip (o : ascii) (new a b : string) :
  contains o a = false → replace o new (a ++ b) = a ++ replace o new b.
Proof.
  induction a as [|x a IH]; [reflexivity|].
  change (String x a ++ b) with (String x (a ++ b)). cbn [replace contains].
  destruct (Ascii.eqb x o); cbn [orb]; [discriminate|].
  intros Ha. rewrite (IH Ha). reflexivity.
Qed.

Lemma split_exponent_skip (m t : string) :
  contains "e" m = false → contains "E" m = false →
  split_exponent (m ++ t)
    = (m ++ fst (split_exponent t), snd (split_exponent t)).
Proof.
  induction m as [|x m IH].
  { intros _ _. change ("" ++ t) with t.
    destruct (split_exponent t); reflexivity. }
  change (String x m ++ t) with (String x (m ++ t)).
  cbn [split_exponent contains].
  destruct (Ascii.eqb x "e"); cbn [orb]; [discriminate|].
  destruct (Ascii.eqb x "E"); cbn [orb]; [discriminate|].
  intros He HE. rewrite (IH He HE). reflexivity.
Qed.

Lemma strip_no_space (s : string) :
  (∀ c, is_space c = true → contains c s = false) → strip s = s.
Proof.
  intros Hs. unfold strip.
  assert (Hl : lstrip s = s).
  { destruct s as [|a r]; [reflexivity|]. cbn [lstrip].
    destruct (is_space a) eqn:Ea; [|reflexivity].
    specialize (Hs a Ea). cbn [contains] in Hs.
    rewrite Ascii.eqb_refl in Hs. discriminate. }
  rewrite Hl. clear Hl. induction s as [|a r IH]; [reflexivity|].
  cbn [rstrip]. rewrite IH.
  - destruct r as [|b r]; [|reflexivity].
    destruct (is_space a) eqn:Ea; [|reflexivity].
    specialize (Hs a Ea). cbn [contains] in Hs.
    rewrite Ascii.eqb_refl in Hs. discriminate.
  - intros c Hc. specialize (Hs c Hc). cbn [contains] in Hs.
    apply orb_false_elim in Hs as [_ Hs]. exact Hs.
Qed.

Lemma space_not_digit (c : ascii) : is_space c = true → digit_of c = None.
Proof.
  destruct c as [[] [] [] [] [] [] [] []]; intros Hc;
    solve [reflexivity | discriminate Hc].
Qed.

Lemma space_not_in_number (c : ascii) :
  is_space c = true → contains c ".e-69" = false.
Proof.
  destruct c as [[] [] [] [] [] [] [] []]; intros Hc;
    solve [reflexivity | discriminate Hc].
Qed.

Lemma take_sign_digit (a : ascii) (r : string) (d : Z) :
  digit_of a = Some d → take_sign (String a r) = (false, String a r).
Proof.
  destruct a as [[] [] [] [] [] [] [] []]; intros Ha;
    solve [reflexivity | discriminate Ha].
Qed.

Lemma digits_value_head (a : ascii) (r : string) (acc n : Z) :
  digits_value acc (String a r) = Some n → ∃ d, digit_of a = Some d.
Proof. cbn [digits_value]. destruct (digit_of a); [eauto|discriminate]. Qed.

(** [Decimal] on digits with a decimal point, alone or followed by one
    of the exponents that [params_dict] substitutes for a unit. *)
Lemma Decimal_of_fraction (i f tail : string) (n x : Z) :
  digits_value 0 (i ++ f) = Some n → i ++ f ≠ "" →
  (tail = "" ∧ x = 0) ∨ (tail = "e-6" ∧ x = -6) ∨ (tail = "e-9" ∧ x = -9) →
  Decimal_of_string (i ++ String "." (f ++ tail))
    = Ok (mkDecimal false n (x - Z.of_nat (String.length f))).
Proof.
  intros Hd Hne Htail.
  assert (Hno : ∀ c, digit_of c = None →
                     contains c i = false ∧ contains c f = false).
  { intros c Hc. pose proof (digits_value_contains _ _ _ _ Hd Hc) as Hif.
    rewrite contains_app in Hif. apply orb_false_elim in Hif. exact Hif. }
  unfold Decimal_of_string.
  rewrite strip_no_space.
  2:{ intros c Hc. destruct (Hno c (space_not_digit c Hc)) as [Hi Hf].
      pose proof (space_not_in_number c Hc) as Hlit.
      rewrite contains_app, Hi. cbn [orb contains] in Hlit |- *.
      rewrite contains_app, Hf. cbn [orb].
      apply orb_false_elim in Hlit as [Hdot Hlit]. rewrite Hdot. cbn [orb].
      destruct Htail as [[-> _]|[[-> _]|[-> _]]]; cbn [contains];
        [reflexivity| |];
        repeat (apply orb_false_elim in Hlit as [? Hlit]);
        repeat match goal with
               | E : Ascii.eqb _ c = false |- _ => rewrite E; clear E
               end; reflexivity. }
  assert (Hsign : take_sign (i ++ String "." (f ++ tail))
                  = (false, i ++ String "." (f ++ tail))).
  { destruct i as [|a i]; [reflexivity|].
    change (String a i ++ f) with (String a (i ++ f)) in Hd.
    destruct (digits_value_head _ _ _ _ Hd) as [d Ha].
    change (String a i ++ String "." (f ++ tail))
      with (String a (i ++ String "." (f ++ tail))).
    apply (take_sign_digit _ _ _ Ha). }
  rewrite Hsign.
  destruct (Hno "e"%char eq_refl) as [Hie Hfe].
  destruct (Hno "E"%char eq_refl) as [HiE HfE].
  destruct (Hno "."%char eq_refl) as [Hidot Hfdot].
  assert (Hexp : split_exponent (i ++ String "." (f ++ tail))
                 = (i ++ String "." f,
                    if String.eqb tail "" then None
                    else Some (String.substring 1 2 tail))).
  { rewrite (split_exponent_skip _ _ Hie HiE). cbn [split_exponent].
    change (Ascii.eqb "." "e" || Ascii.eqb "." "E") with false. cbv iota.
    rewrite (split_exponent_skip _ _ Hfe HfE).
    destruct Htail as [[-> _]|[[-> _]|[-> _]]]; cbn;
      rewrite string_app_nil_r; reflexivity. }
  rewrite Hexp.
  assert (Hsplit : split "." (i ++ String "." f) = [i; f]).
  { rewrite split_app, (split_no_sep _ _ Hidot), (split_no_sep _ _ Hfdot).
    reflexivity. }
  rewrite Hsplit. cbn [List.length Nat.sub Nat.ltb Nat.leb].
  assert (Hlen : ((String.length i + String.length f)%nat =? 0)%nat = false).
  { destruct i; [|reflexivity]. destruct f; [|reflexivity]. contradiction. }
  rewrite Hlen, Hd.
  destruct Htail as [[-> ->]|[[-> ->]|[-> ->]]]; cbn; f_equal; f_equal; lia.
Qed.

Lemma replace_in_value (c : ascii) (new i f sfx : string) :
  contains c i = false → contains c f = false → Ascii.eqb "." c = false →
  replace c new (i ++ String "." (f ++ sfx))
    = i ++ String "." (f ++ replace c new sfx).
Proof.
  intros Hi Hf Hdot. rewrite (replace_skip _ _ _ _ Hi). cbn [replace].
  rewrite Hdot, (replace_skip _ _ _ _ Hf). reflexivity.
Qed.

(** X21. A value written as digits with a decimal point is stored as
    that number of microns when it carries the suffix [u], as a
    thousandth of it when it carries the suffix [n], and as a million
    times it without suffix: [width=0.5u] gives 0.5, [width=500.0n]
    gives 0.5 and [width=0.0000005] gives 0.5.  With at most 28 digits
    the product with [1e6] is exact in the default decimal context. *)
Theorem params_dict_units
    (self : loc) (c : ComponentAttrs) (k i f sfx : string) (n x : Z)
    (σ : state) :
  heap σ !! self = Some (ComponentObj c) →
  comp_params c = Some (k ++ "=" ++ i ++ "." ++ f ++ sfx) →
  contains " " k = false → contains "=" k = false →
  digits_value 0 (i ++ f) = Some n → i ++ f ≠ "" →
  (String.length (i ++ f) ≤ 28)%nat →
  (sfx = "" ∧ x = 6) ∨ (sfx = "u" ∧ x = 0) ∨ (sfx = "n" ∧ x = -3) →
  Component.params_dict self σ
    = (Ok {[ k := VFloat (mkDecimal false n (x - Z.of_nat (String.length f))) ]},
       σ).
Proof.
  intros E Hp Hsp Hk Hd Hne _ Hsfx.
  assert (Hno : ∀ c, digit_of c = None →
                     contains c i = false ∧ contains c f = false).
  { intros ch Hc. pose proof (digits_value_contains _ _ _ _ Hd Hc) as Hif.
    rewrite contains_app in Hif. apply orb_false_elim in Hif. exact Hif. }
  set (v := i ++ String "." (f ++ sfx)).
  change (k ++ "=" ++ i ++ "." ++ f ++ sfx) with (k ++ "=" ++ v) in Hp.
  assert (Hv : ∀ ch, digit_of ch = None → Ascii.eqb "." ch = false →
                     contains ch sfx = false → contains ch v = false).
  { intros ch Hc Hdot Hs. destruct (Hno ch Hc) as [Hi Hf]. unfold v.
    rewrite contains_app, Hi. cbn [orb contains].
    rewrite Hdot, contains_app, Hf, Hs. reflexivity. }
  assert (Hsfx' : ∀ ch, In ch [" "; "="; "["]%char → contains ch sfx = false).
  { intros ch Hch. destruct Hsfx as [[-> _]|[[-> _]|[-> _]]];
      cbn in Hch; intuition subst; reflexivity. }
  assert (Hnosp : contains " " (k ++ "=" ++ v) = false).
  { rewrite contains_app, Hsp. change ("=" ++ v) with (String "=" v).
    cbn [orb contains]. change (Ascii.eqb "=" " ") with false. cbn [orb].
    apply Hv; [reflexivity|reflexivity|]. apply Hsfx'. cbn. auto. }
  assert (Heq : contains "=" v = false).
  { apply Hv; [reflexivity|reflexivity|]. apply Hsfx'. cbn. auto. }
  assert (Hbr : contains "[" v = false).
  { apply Hv; [reflexivity|reflexivity|]. apply Hsfx'. cbn. auto. }
  assert (Hdot : contains "." v = true).
  { unfold v. rewrite contains_app. cbn [contains].
    rewrite Ascii.eqb_refl. cbn [orb]. apply orb_true_r. }
  rewrite (params_dict_run _ _ _ E), (params_dict_attrs_loop _ _ Hp),
    (split_no_sep _ _ Hnosp).
  cbn [Component.params_dict_loop].
  rewrite params_dict_body_rule, (nonempty_true _ (token_nonempty k v)).
  unfold Spec.parse_token. rewrite (split_key_value _ _ Hk Heq).
  change (index [k; v] 1) with (Ok (A:=string) v).
  change (index [k; v] 0) with (Ok (A:=string) k). cbn [Py.bind].
  unfold Spec.parse_value. rewrite Hdot, Hbr. cbn [negb andb].
  destruct (Hno "u"%char eq_refl) as [Hiu Hfu].
  destruct (Hno "n"%char eq_refl) as [Hin Hfn].
  unfold v.
  rewrite (replace_in_value "u" _ _ _ _ Hiu Hfu eq_refl),
    (replace_in_value "n" _ _ _ _ Hin Hfn eq_refl).
  rewrite (Decimal_of_fraction i f _ n (x - 6) Hd Hne).
  2:{ destruct Hsfx as [[-> ->]|[[-> ->]|[-> ->]]]; cbn; auto. }
  cbn [Py.bind]. unfold Decimal_mul. cbn [d_neg d_coeff d_exp xorb].
  rewrite Z.mul_1_r.
  replace (x - 6 - Z.of_nat (String.length f) + 6)
    with (x - Z.of_nat (String.length f)) by lia.
  reflexivity.
Qed.
End TokenFacts.

(** ** Further runs on the integer host *)

Section FurtherRuns.
Import IntHost Examples Printing.

(** A pin given a path and a box has the center of the box and the
    direction of the path. *)
Lemma Pin_init_precedence_run :
  ∃ pin,
    @Pin.__init__ host g0 (Some [(0, 0); (10, 0)]) (Some OPTICAL)
      (Some ((0, 0), (10, 10))) None None None (Some "opt1") = Ok (pin, [])
    ∧ pin_center pin = Some (5, 5)
    ∧ pin_rotation pin = RotAngle (10, 0)
    ∧ pin_box pin = Some (Some ((0, 0), (10, 10)))
    ∧ pin_path pin = Some [(0, 0); (10, 0)]
    ∧ pin_polygon pin = None.
Proof.
  apply (@Pin_init_precedence host g0 (Some [(0, 0); (10, 0)]) (Some OPTICAL)
           (Some ((0, 0), (10, 10))) None None None (Some "opt1")).
  reflexivity.
Defined.

(** Moving the optical pin by 100 along x gives the pin built on the
    path from (100,0) to (110,0). *)
Lemma transform_after_init_run :
  Pin.transform 5%positive shift store5
  = (Ok 5%positive,
     mkState
       (<[5%positive :=
            PinObj (mkPin (Some OPTICAL) 1%positive (Some "opt1") None
                      (Some [(100, 0); (110, 0)]) None (Some (105, 0))
                      (RotAngle (10, 0)) (Some None))]> (heap store5))
       (stdout store5)).
Proof.
  apply (@transform_after_init host g0 (Some [(0, 0); (10, 0)]) None
           (Some OPTICAL) None None (Some "opt1") shift 5%positive store5
           pin5).
  - reflexivity.
  - reflexivity.
  - reflexivity.
Defined.

Lemma transform_frame_run :
  stdout (snd (@Pin.transform host 5%positive turn store5)) = stdout store5
  ∧ (∀ l, l ≠ 5%positive →
       heap (snd (@Pin.transform host 5%positive turn store5)) !! l
       = heap store5 !! l)
  ∧ ∃ q, heap (snd (@Pin.transform host 5%positive turn store5)) !! 5%positive
           = Some (PinObj q)
         ∧ pin_type q = pin_type pin5
         ∧ pin_net q = pin_net pin5
         ∧ pin_pin_name q = pin_pin_name pin5
         ∧ pin_component q = pin_component pin5
         ∧ pin_box q = pin_box pin5.
Proof.
  apply (@transform_frame host 5%positive pin5 turn store5 _
           (fst (@Pin.transform host 5%positive turn store5))).
  - reflexivity.
  - reflexivity.
Defined.

(** A pin left with a path of one point: [transform] moves the path and
    raises. *)
Lemma transform_short_path_run :
  Pin.transform 5%positive shift
    (mkState
       {[ 5%positive :=
            PinObj (@mkPin host (Some OPTICAL) 1%positive None None (Some [(0, 0)])
                      None None (RotInt 0) None) ]} [])
  = (Raise IndexError,
     mkState
       (<[5%positive :=
            PinObj (Pin.set_path (Some (Path_transformed [(0, 0)] shift))
                      (@mkPin host (Some OPTICAL) 1%positive None None
                         (Some [(0, 0)]) None None (RotInt 0) None))]>
          {[ 5%positive :=
               PinObj (@mkPin host (Some OPTICAL) 1%positive None None
                         (Some [(0, 0)]) None None (RotInt 0) None) ]})
       []).
Proof.
  apply (@transform_short_path host 5%positive
           (@mkPin host (Some OPTICAL) 1%positive None None (Some [(0, 0)]) None
              None (RotInt 0) None)
           [(0, 0)] shift).
  - reflexivity.
  - reflexivity.
  - simpl. lia.
Defined.

(** The optical pin alone, as the constructor leaves it, has no
    component. *)
Lemma Pin_display_needs_component_run :
  @Pin.display host format 5%positive store5 = (Raise AttributeError, store5).
Proof.
  apply (@Pin_display_needs_component host format 5%positive pin5 store5).
  - reflexivity.
  - left. reflexivity.
Defined.


(** A Component in the list is displayed by [Component.display]: the
    list at 9 holds the component at 5, whose [npins] was 0; after
    [display_pins] it is 1, and the heading and the report are printed. *)
Lemma display_pins_displays_component :
  ∃ σ',
    @display_pins host g0 format 9%positive
      (mkState
         (<[9%positive := ListObj [5%positive]]>
            (heap (store_with (component5 (Some "wg") None None)))) [])
    = (Ok tt, σ')
    ∧ (comp_npins <$> (heap σ' !! 5%positive ≫= λ o,
                         match o with ComponentObj c => Some c | _ => None end))
      = Some 1
    ∧ comp_npins (component5 (Some "wg") None None) = 0
    ∧ length (stdout σ') = 2%nat.
Proof.
  eexists. split; [reflexivity|]. repeat split.
Qed.

Lemma Net_display_output_run :
  ∃ m,
    @Net.display host format 8%positive layout
    = (Ok tt, mkState (heap layout) (stdout layout ++ [Message m])%list).
Proof.
  apply (proj2 (@Net_display_output host format 8%positive layout)
           (Net.__init__ (Some 0) (Some OPTICAL) (Some 6%positive))
           6%positive [7%positive]).
  - reflexivity.
  - reflexivity.
  - reflexivity.
  - constructor; [|constructor].
    exists owned_pin, (5, 0), 5%positive.
    eexists _, (Net.__init__ None None None).
    repeat split; reflexivity.
Defined.

(** The disconnected net of the layout has no list of pins. *)
Lemma Net_display_without_pins_run :
  @Net.display host format 1%positive layout = (Raise TypeError, layout).
Proof.
  apply (@Net_display_without_pins host format 1%positive
           (Net.__init__ None None None) layout).
  - reflexivity.
  - reflexivity.
Defined.

Lemma Component_new_without_polygon_run :
  @Component.new host g0 (kw (Some "wg") None None None None)
    (@import_state host g0)
  = (Raise AttributeError, @import_state host g0).
Proof.
  apply (@Component_new_without_polygon host g0
           (kw (Some "wg") None None None None) []).
  - reflexivity.
  - reflexivity.
Defined.

(** A second component built on the list at 6, to which the pin at 7 is
    appended once more. *)
Lemma Component_new_aliases_pins_run :
  ∃ (self : loc) (c : ComponentAttrs) (σ1 σ2 : state),
    @Component.new host g0 (kw (Some "wg") None None (Some 6%positive) (Some square))
      (store_with (component5 (Some "wg") None None)) = (Ok self, σ1)
    ∧ list_append 6%positive 7%positive σ1 = (Ok tt, σ2)
    ∧ heap σ2 !! self = Some (ComponentObj c)
    ∧ comp_pins c = 6%positive
    ∧ heap σ2 !! comp_pins c = Some (ListObj ([7%positive] ++ [7%positive]))
    ∧ comp_npins c = Z.of_nat (length [7%positive]).
Proof.
  apply (@Component_new_aliases_pins host g0
           (kw (Some "wg") None None (Some 6%positive) (Some square)) square).
  - reflexivity.
  - reflexivity.
  - reflexivity.
Defined.

Lemma display_unnamed_component_run :
  @Component.display host g0 5%positive (store_with (component5 None None None))
  = (Raise AttributeError,
     mkState
       (<[5%positive :=
            ComponentObj
              (Component.set_npins (Z.of_nat (length [7%positive]))
                 (component5 None None None))]>
          (heap (store_with (component5 None None None))))
       (stdout (store_with (component5 None None None)))).
Proof.
  apply (@display_unnamed_component host g0 5%positive
           (component5 None None None) [7%positive]).
  - reflexivity.
  - reflexivity.
  - constructor; [|constructor].
    exists pin5, (5, 0), (Net.__init__ None None None).
    repeat split; reflexivity.
  - reflexivity.
Defined.

Lemma display_lists_partition_run :
  ∃ (text : Report) (σ' : state),
    @Component.display host g0 5%positive
      (store_with (component5 (Some "wg") None None)) = (Ok text, σ')
    ∧ length (r_optical text)
        = length (List.filter
                    (is_pin_of_type (store_with (component5 (Some "wg") None None))
                       OPTICAL) [7%positive])
    ∧ length (r_electrical text)
        = length (List.filter
                    (is_pin_of_type (store_with (component5 (Some "wg") None None))
                       ELECTRICAL) [7%positive])
    ∧ length (r_opticalio text)
        = length (List.filter
                    (is_pin_of_type (store_with (component5 (Some "wg") None None))
                       OPTICALIO) [7%positive])
    ∧ r_npins text
        = Z.of_nat (length (r_optical text) + length (r_electrical text)
                    + length (r_opticalio text)
                    + length (List.filter
                                (λ l, negb (is_typed_pin
                                              (store_with (component5 (Some "wg") None None))
                                              l))
                                [7%positive])).
Proof.
  apply (@display_lists_partition host g0 5%positive
           (component5 (Some "wg") None None) [7%positive] "wg").
  - reflexivity.
  - reflexivity.
  - reflexivity.
  - constructor; [|constructor].
    exists pin5, (5, 0), (Net.__init__ None None None).
    repeat split; reflexivity.
Defined.

Lemma has_model_unnamed_component_run :
  @Component.has_model host g1 5%positive
    (store_with (component5 None (Some "L") None))
  = (Raise AttributeError, store_with (component5 None (Some "L") None)).
Proof.
  apply (@has_model_unnamed_component host g1 5%positive
           (component5 None (Some "L") None)).
  - reflexivity.
  - reflexivity.
Defined.

Lemma has_model_normal_form_run :
  fst (@Component.has_model host g2 5%positive
         (store_with (component5 (Some "Waveguide") (Some "EBeam/Beta") None)))
  = fst (@Component.has_model host g2 5%positive
           (store_with (component5 (Some "WAVEGUIDE") (Some "ebeam::beta") None))).
Proof.
  apply (@has_model_normal_form host g2 5%positive 5%positive
           (component5 (Some "Waveguide") (Some "EBeam/Beta") None)
           (component5 (Some "WAVEGUIDE") (Some "ebeam::beta") None)
           "Waveguide" "WAVEGUIDE").
  - reflexivity.
  - reflexivity.
  - reflexivity.
  - reflexivity.
  - reflexivity.
  - reflexivity.
Defined.

Lemma params_dict_joined_run :
  fst (Component.params_dict 5%positive
         (store_with (component5 (Some "wg") None (Some "a=5 a=7 b=1.5u"))))
  = (let? da := fst (Component.params_dict 5%positive
                       (store_with (component5 (Some "wg") None (Some "a=5")))) in
     let? db := fst (Component.params_dict 5%positive
                       (store_with (component5 (Some "wg") None (Some "a=7 b=1.5u")))) in
     Ok (db ∪ da)).
Proof.
  apply (@params_dict_joined host 5%positive 5%positive 5%positive
           (component5 (Some "wg") None (Some "a=5 a=7 b=1.5u"))
           (component5 (Some "wg") None (Some "a=5"))
           (component5 (Some "wg") None (Some "a=7 b=1.5u"))
           "a=5" "a=7 b=1.5u").
  - reflexivity.
  - reflexivity.
  - reflexivity.
  - reflexivity.
  - reflexivity.
  - reflexivity.
Defined.

(** The key [b] of ["a=5  b=1.5u"], whose second token is empty. *)
Lemma params_dict_keys_run :
  "b" ∈ dom (<["b" := VFloat (mkDecimal false 15 (-1))]>
               (<["a" := VInt 5]> (∅ : gmap string value)))
  ↔ ∃ s, s ∈ split " " "a=5  b=1.5u" ∧ s ≠ ""
         ∧ index (split "=" s) 0 = Ok "b".
Proof.
  apply (@params_dict_keys host 5%positive
           (component5 (Some "wg") None (Some "a=5  b=1.5u")) "a=5  b=1.5u"
           _ (store_with (component5 (Some "wg") None (Some "a=5  b=1.5u")))).
  - reflexivity.
  - reflexivity.
  - reflexivity.
Defined.

Lemma params_dict_token_without_equals_run :
  (∀ d, Component.params_dict_body d "b" = Raise IndexError)
  ∧ (∃ e, Component.params_dict 5%positive
            (store_with (component5 (Some "wg") None (Some "a=5 b")))
          = (Raise e, store_with (component5 (Some "wg") None (Some "a=5 b"))))
  ∧ (contains " " "a=5 b" = false →
     Component.params_dict 5%positive
       (store_with (component5 (Some "wg") None (Some "a=5 b")))
     = (Raise IndexError,
        store_with (component5 (Some "wg") None (Some "a=5 b")))).
Proof.
  apply (@params_dict_token_without_equals host 5%positive
           (component5 (Some "wg") None (Some "a=5 b")) "a=5 b" "b").
  - reflexivity.
  - reflexivity.
  - apply list_elem_of_further, list_elem_of_here.
  - discriminate.
  - reflexivity.
Defined.

(** The integer-looking value [5u] of the specification's [radius=5u]. *)
Lemma params_dict_integer_text_raises_run :
  (∃ e, Component.params_dict 5%positive
          (store_with (component5 (Some "wg") None (Some "radius=5u")))
        = (Raise e, store_with (component5 (Some "wg") None (Some "radius=5u"))))
  ∧ (contains " " "radius=5u" = false →
     Component.params_dict 5%positive
       (store_with (component5 (Some "wg") None (Some "radius=5u")))
     = (Raise ValueError,
        store_with (component5 (Some "wg") None (Some "radius=5u")))).
Proof.
  apply (@params_dict_integer_text_raises host 5%positive
           (component5 (Some "wg") None (Some "radius=5u")) "radius=5u"
           "radius" "5u" "u"%char).
  - reflexivity.
  - reflexivity.
  - apply list_elem_of_here.
  - reflexivity.
  - reflexivity.
  - reflexivity.
  - reflexivity.
  - reflexivity.
  - reflexivity.
  - reflexivity.
  - vm_compute. lia.
  - discriminate.
  - discriminate.
  - discriminate.
Defined.

Lemma params_dict_second_equals_ignored_run :
  fst (Component.params_dict 5%positive
         (store_with (component5 (Some "wg") None (Some "a=1 w=2=3"))))
  = fst (Component.params_dict 5%positive
           (store_with (component5 (Some "wg") None (Some "a=1 w=2")))).
Proof.
  apply (@params_dict_second_equals_ignored host 5%positive 5%positive
           (component5 (Some "wg") None (Some "a=1 w=2=3"))
           (component5 (Some "wg") None (Some "a=1 w=2"))
           "a=1 w=2=3" "a=1 w=2" "w" "2" "3" ["a=1"] []).
  - reflexivity.
  - reflexivity.
  - reflexivity.
  - reflexivity.
  - reflexivity.
  - reflexivity.
  - reflexivity.
  - reflexivity.
Defined.

(** [width=0.5u] is stored as 0.5, the decimal 5e-1. *)
Lemma params_dict_units_run :
  Component.params_dict 5%positive
    (store_with (component5 (Some "wg") None (Some "width=0.5u")))
  = (Ok {[ "width" := VFloat (mkDecimal false 5 (-1)) ]},
     store_with (component5 (Some "wg") None (Some "width=0.5u"))).
Proof.
  apply (@params_dict_units host 5%positive
           (component5 (Some "wg") None (Some "width=0.5u"))
           "width" "0" "5" "u" 5 0).
  - reflexivity.
  - reflexivity.
  - reflexivity.
  - reflexivity.
  - reflexivity.
  - discriminate.
  - vm_compute. lia.
  - right. left. split; reflexivity.
Defined.
End FurtherRuns.
